(** * A circuit breaker (package [breaker]): shallow embedding and properties

    The Go package keeps one [CircuitBreaker] value behind a mutex.  Every
    method that touches the mutable fields runs with the lock held, so the
    sequential meaning of a method is a function from the breaker before the
    call to the breaker after it.  Each [time.Now()] call site becomes an
    explicit argument of the function that contains it. *)

From Stdlib Require Import ZArith List String Bool Lia.
Import ListNotations.
Local Open Scope Z_scope.

(** ** Go's [int]: 64-bit two's complement *)

Definition int_min : Z := - 2 ^ 63.
Definition int_max : Z := 2 ^ 63 - 1.

Definition wrap (z : Z) : Z := (z + 2 ^ 63) mod 2 ^ 64 - 2 ^ 63.

(** [x++] on an [int]. *)
Definition incr (x : Z) : Z := wrap (x + 1).

(** ** [time.Time] and [time.Duration]

    A [Duration] is a count of nanoseconds.  A [Time] is the number of
    nanoseconds elapsed since the zero [time.Time{}]. *)

Definition Duration := Z.
Definition Time := Z.

Definition Second : Duration := 1000000000.
Definition zeroTime : Time := 0.

Definition Time_Before (u t : Time) : bool := u <? t.
Definition Time_Add (t : Time) (d : Duration) : Time := t + d.

(** ** States and errors *)

(** [const ( StateHalfOpen State = iota; StateOpen; StateClosed )]: the zero
    value of [State] is [StateHalfOpen]. *)
Inductive State : Type :=
| StateHalfOpen
| StateOpen
| StateClosed.

Definition State_eqb (a b : State) : bool :=
  match a, b with
  | StateHalfOpen, StateHalfOpen => true
  | StateOpen, StateOpen => true
  | StateClosed, StateClosed => true
  | _, _ => false
  end.

Definition State_String (s : State) : string :=
  match s with
  | StateClosed => "closed"
  | StateHalfOpen => "half-open"
  | StateOpen => "open"
  end.

(** The two sentinel errors of the package, and the errors of the wrapped
    operation.  A nil [error] is [None]. *)
Inductive error : Type :=
| ErrTooManyRequests
| ErrOpenState
| OpError (msg : string).

Definition error_message (e : error) : string :=
  match e with
  | ErrTooManyRequests => "too many requests"
  | ErrOpenState => "circuit breaker is open"
  | OpError msg => msg
  end.

(** ** Counts *)

Module Counts.

Record t : Type := mk {
  Requests : Z;
  TotalSuccess : Z;
  TotalFail : Z;
  ConsecutiveSuccess : Z;
  ConsecutiveFail : Z
}.

Definition zero : t := mk 0 0 0 0 0.

Definition onRequest (c : t) : t :=
  mk (incr (Requests c)) (TotalSuccess c) (TotalFail c)
     (ConsecutiveSuccess c) (ConsecutiveFail c).

Definition onSuccess (c : t) : t :=
  mk (Requests c) (incr (TotalSuccess c)) (TotalFail c)
     (incr (ConsecutiveSuccess c)) 0.

Definition onFail (c : t) : t :=
  mk (Requests c) (TotalSuccess c) (incr (TotalFail c))
     0 (incr (ConsecutiveFail c)).

Definition clear (c : t) : t := mk 0 0 0 0 0.

End Counts.

(** ** Settings and the breaker *)

(** A nil [ReadyToTrip] is [None]. *)
Record Settings : Type := mkSettings {
  Timeout : Duration;
  MaxRequests : Z;
  ReadyToTrip : option (Counts.t -> bool)
}.

Record CircuitBreaker : Type := mkCB {
  timeout : Duration;
  maxRequests : Z;
  readyToTrip : Counts.t -> bool;
  state : State;
  generation : Z;
  counts : Counts.t;
  expiry : Time
}.

Definition set_state (cb : CircuitBreaker) (s : State) : CircuitBreaker :=
  mkCB (timeout cb) (maxRequests cb) (readyToTrip cb)
       s (generation cb) (counts cb) (expiry cb).

Definition set_generation (cb : CircuitBreaker) (g : Z) : CircuitBreaker :=
  mkCB (timeout cb) (maxRequests cb) (readyToTrip cb)
       (state cb) g (counts cb) (expiry cb).

Definition set_counts (cb : CircuitBreaker) (c : Counts.t) : CircuitBreaker :=
  mkCB (timeout cb) (maxRequests cb) (readyToTrip cb)
       (state cb) (generation cb) c (expiry cb).

Definition set_expiry (cb : CircuitBreaker) (e : Time) : CircuitBreaker :=
  mkCB (timeout cb) (maxRequests cb) (readyToTrip cb)
       (state cb) (generation cb) (counts cb) e.

Definition defaultTimeOut : Duration := 60 * Second.
Definition defaultMaxRequests : Z := 5.

Definition defaultReadyToTrip (c : Counts.t) : bool :=
  5 <=? Counts.ConsecutiveFail c.

(** [refresh]: the state is read after the generation and the counts have
    been updated, and decides the new expiry. *)
Definition refresh (cb : CircuitBreaker) (t : Time) : CircuitBreaker :=
  let cb := set_generation cb (incr (generation cb)) in
  let cb := set_counts cb (Counts.clear (counts cb)) in
  match state cb with
  | StateClosed => set_expiry cb (Time_Add t (timeout cb))
  | _ => set_expiry cb zeroTime
  end.

(** [NewCircuitBreaker].  [new(CircuitBreaker)] zeroes every field; the three
    configuration fields are assigned before anything reads them, so the
    record is built once they are known, with the other fields at their zero
    values: state [StateHalfOpen], generation 0, empty counts, zero expiry.
    The second test reads [setings.Timeout], as the source does. *)
Definition NewCircuitBreaker (setings : Settings) (now : Time) : CircuitBreaker :=
  let timeout' :=
    if Timeout setings <=? 0 then defaultTimeOut else Timeout setings in
  let maxRequests' :=
    if Timeout setings <=? 0 then defaultMaxRequests else MaxRequests setings in
  let readyToTrip' :=
    match ReadyToTrip setings with
    | None => defaultReadyToTrip
    | Some f => f
    end in
  let cb := mkCB timeout' maxRequests' readyToTrip'
                 StateHalfOpen 0 Counts.zero zeroTime in
  let cb := refresh cb now in
  let cb := set_state cb StateClosed in
  let cb := set_generation cb 0 in
  cb.

Definition newGeneration (cb : CircuitBreaker) (t : Time) : CircuitBreaker :=
  let cb := set_counts cb (Counts.clear (counts cb)) in
  let cb := set_generation cb (incr (generation cb)) in
  if State_eqb (state cb) StateOpen
  then set_expiry cb (Time_Add t (timeout cb))
  else set_expiry cb zeroTime.

Definition setState (cb : CircuitBreaker) (s : State) (t : Time) : CircuitBreaker :=
  if State_eqb s (state cb) then cb
  else newGeneration (set_state cb s) t.

(** [currentState]: [t] is the argument, [tnow] the reading of the
    [time.Now()] inside the body. *)
Definition currentState (cb : CircuitBreaker) (t tnow : Time)
  : CircuitBreaker * State * Z :=
  let cb :=
    if State_eqb (state cb) StateClosed && Time_Before (expiry cb) t
    then setState cb StateHalfOpen tnow
    else cb in
  (cb, state cb, generation cb).

(** [beforeRequest]: [t] is the clock reading passed to [currentState]. *)
Definition beforeRequest (cb : CircuitBreaker) (t tnow : Time)
  : CircuitBreaker * Z * option error :=
  let cb := set_counts cb (Counts.onRequest (counts cb)) in
  let '(cb, currState, generation) := currentState cb t tnow in
  if State_eqb currState StateOpen then (cb, generation, Some ErrOpenState)
  else if State_eqb currState StateHalfOpen
          && (maxRequests cb <? Counts.Requests (counts cb))
  then (cb, generation, Some ErrTooManyRequests)
  else (cb, generation, None).

Definition onSuccess (cb : CircuitBreaker) (currState : State) (t : Time)
  : CircuitBreaker :=
  match currState with
  | StateClosed =>
      let cb := set_counts cb (Counts.onSuccess (counts cb)) in
      if readyToTrip cb (counts cb) then setState cb StateOpen t else cb
  | StateHalfOpen =>
      let cb := set_counts cb (Counts.onSuccess (counts cb)) in
      if maxRequests cb <=? Counts.ConsecutiveSuccess (counts cb)
      then setState cb StateClosed t else cb
  | StateOpen => cb
  end.

Definition onFail (cb : CircuitBreaker) (currState : State) (t : Time)
  : CircuitBreaker :=
  match currState with
  | StateClosed => set_counts cb (Counts.onFail (counts cb))
  | StateHalfOpen =>
      let cb := set_counts cb (Counts.onFail (counts cb)) in
      setState cb StateOpen t
  | StateOpen => cb
  end.

(** [afterRequest]: [now] is the first clock reading, [t] the second (the
    argument of [currentState]), [tnow] the one inside [currentState]. *)
Definition afterRequest (cb : CircuitBreaker) (before : Z) (isSuccess : bool)
    (now t tnow : Time) : CircuitBreaker :=
  let '(cb, currState, generation) := currentState cb t tnow in
  if negb (generation =? before) then cb
  else if isSuccess then onSuccess cb currState now
  else onFail cb currState now.

(** ** Execute

    The wrapped operation either returns a result and an error, or panics. *)
Inductive ReqResult (V P : Type) : Type :=
| Returns (res : option V) (err : option error)
| Panics (e : P).
Arguments Returns {V P} res err.
Arguments Panics {V P} e.

(** The five clock readings of one admitted call. *)
Record Clock : Type := mkClock {
  before_t : Time;
  before_tnow : Time;
  after_now : Time;
  after_t : Time;
  after_tnow : Time
}.

Definition err_not_nil (err : option error) : bool :=
  match err with
  | Some _ => true
  | None => false
  end.

(** [Execute], for one call taken alone: no other call takes the lock of
    the breaker between its admission and its completion, and the operation
    ends by returning or by panicking.  On a panic (with a value that is not
    nil) the deferred function runs [afterRequest generation false] and
    panics again with the same value; on a normal return the second argument
    of [afterRequest] is [err != nil].  Calls that overlap are histories of
    events, further down. *)
Definition Execute {V P : Type} (cb : CircuitBreaker)
    (req : unit -> ReqResult V P) (k : Clock)
  : CircuitBreaker * ReqResult V P :=
  let '(cb, generation, err) := beforeRequest cb (before_t k) (before_tnow k) in
  match err with
  | Some e => (cb, Returns None (Some e))
  | None =>
      match req tt with
      | Panics e =>
          (afterRequest cb generation false
                        (after_now k) (after_t k) (after_tnow k),
           Panics e)
      | Returns res err =>
          (afterRequest cb generation (err_not_nil err)
                        (after_now k) (after_t k) (after_tnow k),
           Returns res err)
      end
  end.

(** [cb] with another trip predicate and every other field unchanged; used
    to state that a result does not depend on the predicate. *)
Definition with_readyToTrip (cb : CircuitBreaker) (p : Counts.t -> bool)
  : CircuitBreaker :=
  mkCB (timeout cb) (maxRequests cb) p
       (state cb) (generation cb) (counts cb) (expiry cb).

(** The breaker left behind by [currentState]: only the lazy, time-driven
    transition has been applied. *)
Definition resolved (cb : CircuitBreaker) (t tnow : Time) : CircuitBreaker :=
  fst (fst (currentState cb t tnow)).

(** ** Histories

    A history of calls on one breaker: admission checks and recorded
    outcomes, in the order in which they take the lock. *)
Inductive Event : Type :=
| Admission (t tnow : Time)
| Outcome (before : Z) (isSuccess : bool) (now t tnow : Time).

Definition step (cb : CircuitBreaker) (ev : Event) : CircuitBreaker :=
  match ev with
  | Admission t tnow => fst (fst (beforeRequest cb t tnow))
  | Outcome before isSuccess now t tnow =>
      afterRequest cb before isSuccess now t tnow
  end.

(** The error of each admission check of the history, in order. *)
Fixpoint admissions (cb : CircuitBreaker) (evs : list Event)
  : list (option error) :=
  match evs with
  | [] => []
  | Admission t tnow :: rest =>
      snd (beforeRequest cb t tnow)
      :: admissions (step cb (Admission t tnow)) rest
  | ev :: rest => admissions (step cb ev) rest
  end.

(** The breaker after each event of the history. *)
Fixpoint states (cb : CircuitBreaker) (evs : list Event)
  : list CircuitBreaker :=
  match evs with
  | [] => []
  | ev :: rest => step cb ev :: states (step cb ev) rest
  end.

Fixpoint checks (evs : list Event) : nat :=
  match evs with
  | [] => O
  | Admission _ _ :: rest => S (checks rest)
  | _ :: rest => checks rest
  end.

(** The verdicts of [n] checks in a row when [r] requests are already
    counted and the limit is [m]. *)
Fixpoint verdicts (m r : Z) (n : nat) : list (option error) :=
  match n with
  | O => []
  | S n' =>
      (if m <? r + 1 then Some ErrTooManyRequests else None)
      :: verdicts m (r + 1) n'
  end.

(** For each admission check of the history: the state it leaves the
    breaker in, the tag it returns and its error. *)
Fixpoint observed (cb : CircuitBreaker) (evs : list Event)
  : list (State * Z * option error) :=
  match evs with
  | [] => []
  | Admission t tnow :: rest =>
      (state (fst (fst (beforeRequest cb t tnow))),
       snd (fst (beforeRequest cb t tnow)),
       snd (beforeRequest cb t tnow))
      :: observed (step cb (Admission t tnow)) rest
  | ev :: rest => observed (step cb ev) rest
  end.

(** The breaker at the end of a history. *)
Definition run (cb : CircuitBreaker) (evs : list Event) : CircuitBreaker :=
  fold_left step evs cb.

(** The clock reading that an event hands to [currentState]. *)
Definition event_time (ev : Event) : Time :=
  match ev with
  | Admission t _ => t
  | Outcome _ _ _ t _ => t
  end.

(** [n] successes recorded one after the other under the tag [g], one
    triple of clock readings for each. *)
Definition successes (g : Z) (clks : list (Time * Time * Time)) : list Event :=
  map (fun k => Outcome g true (fst (fst k)) (snd (fst k)) (snd k)) clks.

(** Admission checks one after the other, a pair of clock readings for
    each. *)
Definition checks_at (clks : list (Time * Time)) : list Event :=
  map (fun k => Admission (fst k) (snd k)) clks.

(** What [Execute] passes to [afterRequest] for each way the operation can
    end. *)
Definition accounted_as_success {V P : Type} (r : ReqResult V P) : bool :=
  match r with
  | Returns _ err => err_not_nil err
  | Panics _ => false
  end.

(** ** Invariants *)

(** Two breakers with the same configuration. *)
Definition same_config (a b : CircuitBreaker) : Prop :=
  timeout a = timeout b /\
  maxRequests a = maxRequests b /\
  readyToTrip a = readyToTrip b.

(** Only an open breaker carries an expiry. *)
Definition expiry_ok (cb : CircuitBreaker) : Prop :=
  state cb = StateOpen \/ expiry cb = zeroTime.

(** The counters are not negative, a streak is no longer than its total,
    one of the two streaks is empty, and no counter is above [b]. *)
Definition Counts_ok (b : Z) (c : Counts.t) : Prop :=
  0 <= Counts.Requests c <= b /\
  0 <= Counts.ConsecutiveSuccess c <= Counts.TotalSuccess c /\
  Counts.TotalSuccess c <= b /\
  0 <= Counts.ConsecutiveFail c <= Counts.TotalFail c /\
  Counts.TotalFail c <= b /\
  (Counts.ConsecutiveSuccess c = 0 \/ Counts.ConsecutiveFail c = 0).

(** ** Sample breakers and calls *)

(** A breaker as the constructor leaves it, with the default settings. *)
Definition defaultSettings : Settings := mkSettings 0 0 None.
Definition cb_new : CircuitBreaker := NewCircuitBreaker defaultSettings 1000.

(** The same breaker after its first admission check, at time 2000. *)
Definition cb_probe : CircuitBreaker := fst (fst (beforeRequest cb_new 2000 2000)).

(** A breaker that is open: [cb_probe] after one recorded failure. *)
Definition cb_open : CircuitBreaker := onFail cb_probe StateHalfOpen 2500.

(** A closed breaker whose window has passed, holding two recorded
    failures under generation 4. *)
Definition cb_closed_due : CircuitBreaker :=
  mkCB defaultTimeOut 5 defaultReadyToTrip StateClosed 4
       (Counts.mk 2 0 2 0 2) zeroTime.

(** The breaker [cb_probe] after five successes recorded under its
    generation: the fifth one returns it to [StateClosed]. *)
Definition cb_recovered : CircuitBreaker :=
  let record cb := afterRequest cb 1 true 2500 2500 2500 in
  record (record (record (record (record cb_probe)))).

Definition clock_2000 : Clock := mkClock 2000 2000 2500 2500 2500.

(** An operation that returns a body and a nil error, and one that returns
    an error. *)
Definition req_ok (_ : unit) : ReqResult string string :=
  Returns (Some "body"%string) None.
Definition req_err (_ : unit) : ReqResult string string :=
  Returns None (Some (OpError "connection refused")).

(** Seven checks on [cb_probe], whose limit is 5, with two successes
    recorded in between. *)
Definition probe_history : list Event :=
  [ Admission 2100 2100; Admission 2200 2200;
    Outcome 1 true 2300 2300 2300;
    Admission 2400 2400; Admission 2500 2500;
    Outcome 1 true 2600 2600 2600;
    Admission 2700 2700; Admission 2800 2800; Admission 2900 2900 ].

(** A closed breaker inside its window, with a trip predicate that holds
    after the first success. *)
Definition cb_closed_window : CircuitBreaker :=
  mkCB defaultTimeOut 5 (fun c => 1 <=? Counts.TotalSuccess c) StateClosed 2
       Counts.zero 5000.

(** A new breaker with a timeout of ten seconds and no trial limit given:
    its limit is 0. *)
Definition cb_limit0 : CircuitBreaker :=
  NewCircuitBreaker (mkSettings (10 * Second) 0 None) 1000.

(** Seven admission checks one after the other. *)
Definition seven_checks : list Event :=
  [ Admission 3000 3000; Admission 3100 3100; Admission 3200 3200;
    Admission 3300 3300; Admission 3400 3400; Admission 3500 3500;
    Admission 3600 3600 ].

(** * Basic facts *)

(** Case analysis on the condition of the first conditional in the goal. *)
Ltac break_if :=
  match goal with
  | |- context [if ?b then _ else _] => destruct b eqn:?
  end.

Lemma wrap_id (z : Z) : int_min <= z <= int_max -> wrap z = z.
Proof.
  unfold wrap, int_min, int_max. intros H.
  rewrite Z.mod_small; lia.
Qed.

Lemma incr_succ (x : Z) : int_min <= x < int_max -> incr x = x + 1.
Proof.
  unfold incr. intros H. apply wrap_id. unfold int_min, int_max in *. lia.
Qed.

Lemma State_eqb_refl (s : State) : State_eqb s s = true.
Proof. destruct s; reflexivity. Qed.

Lemma State_eqb_eq (a b : State) : State_eqb a b = true <-> a = b.
Proof. destruct a, b; simpl; split; intros H; congruence. Qed.

Lemma State_eqb_neq (a b : State) : State_eqb a b = false <-> a <> b.
Proof. destruct a, b; simpl; split; intros H; congruence. Qed.

Lemma setState_same (cb : CircuitBreaker) (t : Time) :
  setState cb (state cb) t = cb.
Proof. unfold setState. rewrite State_eqb_refl. reflexivity. Qed.

Lemma setState_fresh (cb : CircuitBreaker) (s : State) (t : Time) :
  s <> state cb ->
  setState cb s t =
  mkCB (timeout cb) (maxRequests cb) (readyToTrip cb) s
       (incr (generation cb)) Counts.zero
       (match s with
        | StateOpen => Time_Add t (timeout cb)
        | _ => zeroTime
        end).
Proof.
  intros H. unfold setState.
  apply State_eqb_neq in H. rewrite H.
  destruct s; reflexivity.
Qed.

(** [currentState] leaves the breaker alone unless it is [StateClosed] with
    an expiry before [t]. *)
Lemma currentState_not_due (cb : CircuitBreaker) (t tnow : Time) :
  State_eqb (state cb) StateClosed && Time_Before (expiry cb) t = false ->
  currentState cb t tnow = (cb, state cb, generation cb).
Proof. intros H. unfold currentState. rewrite H. reflexivity. Qed.

Lemma currentState_due (cb : CircuitBreaker) (t tnow : Time) :
  state cb = StateClosed -> expiry cb < t ->
  currentState cb t tnow =
  (mkCB (timeout cb) (maxRequests cb) (readyToTrip cb) StateHalfOpen
        (incr (generation cb)) Counts.zero zeroTime,
   StateHalfOpen, incr (generation cb)).
Proof.
  intros Hs He. unfold currentState, Time_Before.
  rewrite Hs. simpl State_eqb.
  assert (Hb : (expiry cb <? t) = true) by (apply Z.ltb_lt; exact He).
  rewrite Hb. simpl andb.
  rewrite setState_fresh by (rewrite Hs; discriminate).
  reflexivity.
Qed.

Lemma currentState_outputs (cb : CircuitBreaker) (t tnow : Time) :
  currentState cb t tnow =
  (resolved cb t tnow, state (resolved cb t tnow),
   generation (resolved cb t tnow)).
Proof. reflexivity. Qed.

Lemma currentState_not_Closed (cb : CircuitBreaker) (t tnow : Time) :
  state cb <> StateClosed ->
  currentState cb t tnow = (cb, state cb, generation cb).
Proof.
  intros H. apply currentState_not_due.
  apply State_eqb_neq in H. rewrite H. reflexivity.
Qed.

(** * Transitions: [setState] and [newGeneration] *)

(** C7: [setState] with the current state changes nothing; with any other
    state it installs that state, increments the generation by one (Go's
    [++], which is [+ 1] below the largest [int]) and leaves all five
    counters at zero. *)
Theorem setState_same_or_new_generation
    (cb : CircuitBreaker) (s : State) (t : Time) :
  (s = state cb -> setState cb s t = cb) /\
  (s <> state cb ->
   state (setState cb s t) = s /\
   generation (setState cb s t) = incr (generation cb) /\
   (int_min <= generation cb < int_max ->
    generation (setState cb s t) = generation cb + 1) /\
   counts (setState cb s t) = Counts.mk 0 0 0 0 0).
Proof.
  split.
  - intros ->. apply setState_same.
  - intros Hne. rewrite (setState_fresh cb s t Hne). simpl.
    repeat split.
    intros Hrange. apply incr_succ. exact Hrange.
Qed.

Lemma setState_same_or_new_generation_witness :
  setState cb_probe StateHalfOpen 3000 = cb_probe /\
  generation (setState cb_probe StateOpen 3000) = 2 /\
  counts (setState cb_probe StateOpen 3000) = Counts.mk 0 0 0 0 0.
Proof.
  destruct (setState_same_or_new_generation cb_probe StateHalfOpen 3000)
    as [Hsame _].
  destruct (setState_same_or_new_generation cb_probe StateOpen 3000)
    as [_ Hnew].
  split.
  - apply Hsame. reflexivity.
  - destruct Hnew as (_ & _ & Hgen & Hcounts).
    + simpl. discriminate.
    + split.
      * rewrite Hgen; [reflexivity | vm_compute; split; congruence].
      * exact Hcounts.
Defined.

(** * Outcome recording *)

(** C10: with the breaker in [StateOpen] and a tag equal to the current
    generation, [afterRequest] returns the breaker unchanged, for a success
    and for a failure alike. *)
Theorem afterRequest_Open_noop
    (cb : CircuitBreaker) (before : Z) (isSuccess : bool) (now t tnow : Time) :
  state cb = StateOpen ->
  before = generation cb ->
  afterRequest cb before isSuccess now t tnow = cb.
Proof.
  intros Hs Hg. unfold afterRequest.
  rewrite currentState_not_Closed by (rewrite Hs; discriminate).
  rewrite Hs, Hg, Z.eqb_refl. simpl.
  destruct isSuccess; reflexivity.
Qed.

Lemma afterRequest_Open_noop_witness :
  afterRequest cb_open 2 true 3000 3000 3000 = cb_open /\
  afterRequest cb_open 2 false 3000 3000 3000 = cb_open.
Proof.
  split; apply afterRequest_Open_noop; reflexivity.
Defined.

(** C5: when the tag differs from the generation that [afterRequest] reads
    from [currentState], the outcome is dropped: the breaker is the one
    [currentState] left, whatever the outcome was.  In particular a tag older
    than the stored generation is always dropped, and the counts are then
    either untouched or the empty counts of the generation that the lazy
    transition has just opened. *)
Theorem afterRequest_stale_discarded
    (cb : CircuitBreaker) (before : Z) (isSuccess : bool) (now t tnow : Time) :
  (generation (resolved cb t tnow) <> before ->
   afterRequest cb before isSuccess now t tnow = resolved cb t tnow) /\
  (int_min <= before -> before < generation cb -> generation cb < int_max ->
   afterRequest cb before isSuccess now t tnow = resolved cb t tnow /\
   before < generation (afterRequest cb before isSuccess now t tnow) /\
   (afterRequest cb before isSuccess now t tnow = cb \/
    counts (afterRequest cb before isSuccess now t tnow) = Counts.zero)).
Proof.
  assert (Hdrop : generation (resolved cb t tnow) <> before ->
                  afterRequest cb before isSuccess now t tnow
                  = resolved cb t tnow).
  { intros Hne. unfold afterRequest.
    rewrite currentState_outputs.
    apply Z.eqb_neq in Hne. rewrite Hne. reflexivity. }
  split; [exact Hdrop|].
  intros Hmin Hlt Hmax.
  assert (Hres : resolved cb t tnow = cb \/
                 (generation (resolved cb t tnow) = generation cb + 1 /\
                  counts (resolved cb t tnow) = Counts.zero)).
  { unfold resolved, currentState.
    destruct (State_eqb (state cb) StateClosed && Time_Before (expiry cb) t)
      eqn:Hdue; simpl; [right | left; reflexivity].
    apply andb_prop in Hdue. destruct Hdue as [Hs _].
    apply State_eqb_eq in Hs.
    rewrite setState_fresh by (rewrite Hs; discriminate). simpl.
    split; [|reflexivity].
    apply incr_succ. lia. }
  assert (Hstale : before < generation (resolved cb t tnow)).
  { destruct Hres as [-> | [-> _]]; lia. }
  rewrite Hdrop by lia.
  repeat split; [exact Hstale|].
  destruct Hres as [-> | [_ Hc]]; [left; reflexivity | right; exact Hc].
Qed.

Lemma afterRequest_stale_discarded_witness :
  afterRequest cb_open 1 true 3000 3000 3000 = cb_open /\
  counts (afterRequest cb_closed_due 3 false 50 50 50) = Counts.zero /\
  generation (afterRequest cb_closed_due 3 false 50 50 50) = 5.
Proof.
  destruct (afterRequest_stale_discarded cb_open 1 true 3000 3000 3000)
    as [Hdrop _].
  destruct (afterRequest_stale_discarded cb_closed_due 3 false 50 50 50)
    as [_ Hold].
  split.
  - rewrite Hdrop; [reflexivity | vm_compute; congruence].
  - destruct Hold as (Heq & _ & _).
    + vm_compute; congruence.
    + reflexivity.
    + reflexivity.
    + rewrite Heq. split; reflexivity.
Defined.

(** C8: recording a failure for an observed [StateClosed] touches the counts
    only (both failure counters incremented, the success streak reset), keeps
    state, generation and expiry, and gives the same breaker whatever the
    trip predicate is.  The predicate decides a result in one place only:
    after a success recorded for [StateClosed].  There, when it holds of the
    updated counts the closed breaker enters [StateOpen] (next generation,
    counters at zero, expiry at the time of the outcome plus the timeout);
    when it does not hold, only the success is counted.  The same is stated
    for [afterRequest] on a closed breaker whose window has not passed. *)
Theorem trip_predicate_only_after_Closed_success
    (cb : CircuitBreaker) (t : Time) :
  (onFail cb StateClosed t =
   mkCB (timeout cb) (maxRequests cb) (readyToTrip cb)
        (state cb) (generation cb)
        (Counts.mk (Counts.Requests (counts cb))
                   (Counts.TotalSuccess (counts cb))
                   (incr (Counts.TotalFail (counts cb)))
                   0
                   (incr (Counts.ConsecutiveFail (counts cb))))
        (expiry cb)) /\
  (forall (s : State) (p : Counts.t -> bool),
      onFail (with_readyToTrip cb p) s t
      = with_readyToTrip (onFail cb s t) p) /\
  (forall (s : State) (p : Counts.t -> bool),
      s <> StateClosed ->
      onSuccess (with_readyToTrip cb p) s t
      = with_readyToTrip (onSuccess cb s t) p) /\
  (onSuccess cb StateClosed t =
   if readyToTrip cb (Counts.onSuccess (counts cb))
   then setState (set_counts cb (Counts.onSuccess (counts cb))) StateOpen t
   else set_counts cb (Counts.onSuccess (counts cb))) /\
  (state cb = StateClosed ->
   readyToTrip cb (Counts.onSuccess (counts cb)) = true ->
   onSuccess cb StateClosed t
   = mkCB (timeout cb) (maxRequests cb) (readyToTrip cb) StateOpen
          (incr (generation cb)) (Counts.mk 0 0 0 0 0)
          (Time_Add t (timeout cb))) /\
  (readyToTrip cb (Counts.onSuccess (counts cb)) = false ->
   onSuccess cb StateClosed t
   = mkCB (timeout cb) (maxRequests cb) (readyToTrip cb)
          (state cb) (generation cb)
          (Counts.mk (Counts.Requests (counts cb))
                     (incr (Counts.TotalSuccess (counts cb)))
                     (Counts.TotalFail (counts cb))
                     (incr (Counts.ConsecutiveSuccess (counts cb)))
                     0)
          (expiry cb)) /\
  (forall tc tnow : Time,
      state cb = StateClosed ->
      Time_Before (expiry cb) tc = false ->
      afterRequest cb (generation cb) false t tc tnow
      = mkCB (timeout cb) (maxRequests cb) (readyToTrip cb)
             StateClosed (generation cb)
             (Counts.mk (Counts.Requests (counts cb))
                        (Counts.TotalSuccess (counts cb))
                        (incr (Counts.TotalFail (counts cb)))
                        0
                        (incr (Counts.ConsecutiveFail (counts cb))))
             (expiry cb) /\
      afterRequest cb (generation cb) true t tc tnow
      = if readyToTrip cb (Counts.onSuccess (counts cb))
        then mkCB (timeout cb) (maxRequests cb) (readyToTrip cb) StateOpen
                  (incr (generation cb)) (Counts.mk 0 0 0 0 0)
                  (Time_Add t (timeout cb))
        else mkCB (timeout cb) (maxRequests cb) (readyToTrip cb)
                  StateClosed (generation cb)
                  (Counts.mk (Counts.Requests (counts cb))
                             (incr (Counts.TotalSuccess (counts cb)))
                             (Counts.TotalFail (counts cb))
                             (incr (Counts.ConsecutiveSuccess (counts cb)))
                             0)
                  (expiry cb)).
Proof.
  assert (Htrip : state cb = StateClosed ->
                  readyToTrip cb (Counts.onSuccess (counts cb)) = true ->
                  onSuccess cb StateClosed t
                  = mkCB (timeout cb) (maxRequests cb) (readyToTrip cb)
                         StateOpen (incr (generation cb))
                         (Counts.mk 0 0 0 0 0) (Time_Add t (timeout cb))).
  { intros Hs Hp. unfold onSuccess.
    cbn [set_counts readyToTrip counts]. rewrite Hp.
    rewrite setState_fresh by (simpl; rewrite Hs; discriminate).
    reflexivity. }
  assert (Hkeep : readyToTrip cb (Counts.onSuccess (counts cb)) = false ->
                  onSuccess cb StateClosed t
                  = set_counts cb (Counts.onSuccess (counts cb))).
  { intros Hp. unfold onSuccess.
    cbn [set_counts readyToTrip counts]. rewrite Hp. reflexivity. }
  split; [reflexivity|].
  split.
  { intros s p. destruct s; simpl; try reflexivity.
    unfold setState. simpl.
    destruct (state cb); reflexivity. }
  split.
  { intros s p Hs. destruct s; simpl; try reflexivity; [|congruence].
    destruct (maxRequests cb <=? incr (Counts.ConsecutiveSuccess (counts cb)));
      [|reflexivity].
    unfold setState. simpl.
    destruct (state cb); reflexivity. }
  split; [reflexivity|].
  split; [exact Htrip|].
  split; [intros Hp; rewrite (Hkeep Hp); reflexivity|].
  intros tc tnow Hs Hwin.
  assert (Hcur : currentState cb tc tnow = (cb, StateClosed, generation cb)).
  { rewrite currentState_not_due by (rewrite Hwin; apply andb_false_r).
    rewrite Hs. reflexivity. }
  unfold afterRequest. rewrite Hcur, Z.eqb_refl. cbn [negb].
  split.
  - unfold onFail, set_counts, Counts.onFail. rewrite Hs. reflexivity.
  - destruct (readyToTrip cb (Counts.onSuccess (counts cb))) eqn:Hp.
    + apply Htrip; [exact Hs | reflexivity].
    + rewrite (Hkeep eq_refl).
      unfold set_counts, Counts.onSuccess. rewrite Hs. reflexivity.
Qed.

Lemma trip_predicate_only_after_Closed_success_witness :
  onSuccess (with_readyToTrip cb_probe (fun _ => true)) StateHalfOpen 2500
  = with_readyToTrip (onSuccess cb_probe StateHalfOpen 2500) (fun _ => true) /\
  onSuccess cb_closed_window StateClosed 3000
  = mkCB defaultTimeOut 5 (readyToTrip cb_closed_window) StateOpen 3
         (Counts.mk 0 0 0 0 0) (3000 + 60 * Second) /\
  onSuccess cb_recovered StateClosed 3000
  = mkCB defaultTimeOut 5 defaultReadyToTrip StateClosed 2
         (Counts.mk 0 1 0 1 0) zeroTime /\
  afterRequest cb_closed_window 2 false 3000 3100 3100
  = mkCB defaultTimeOut 5 (readyToTrip cb_closed_window) StateClosed 2
         (Counts.mk 0 0 1 0 1) 5000 /\
  afterRequest cb_closed_window 2 true 3000 3100 3100
  = mkCB defaultTimeOut 5 (readyToTrip cb_closed_window) StateOpen 3
         (Counts.mk 0 0 0 0 0) (3000 + 60 * Second).
Proof.
  destruct (trip_predicate_only_after_Closed_success cb_probe 2500)
    as (_ & _ & Hindep & _).
  destruct (trip_predicate_only_after_Closed_success cb_closed_window 3000)
    as (_ & _ & _ & _ & Htrip & _ & Hafter).
  destruct (trip_predicate_only_after_Closed_success cb_recovered 3000)
    as (_ & _ & _ & _ & _ & Hkeep & _).
  destruct (Hafter 3100 3100) as [Hfail Hsucc]; [reflexivity | reflexivity |].
  split; [apply Hindep; discriminate|].
  split; [exact (Htrip eq_refl eq_refl)|].
  split; [exact (Hkeep eq_refl)|].
  split; [exact Hfail | exact Hsucc].
Defined.

(** * Construction *)

(** C9: the constructor returns a closed breaker of generation 0 with empty
    counts and the zero expiry.  Its first admission check at a time after
    the zero time therefore finds the window expired: the breaker moves to
    [StateHalfOpen] under generation 1 with empty counts, and the call is
    admitted whenever [maxRequests] is not negative. *)
Theorem NewCircuitBreaker_first_admission
    (setings : Settings) (created t tnow : Time) :
  (state (NewCircuitBreaker setings created) = StateClosed /\
   generation (NewCircuitBreaker setings created) = 0 /\
   counts (NewCircuitBreaker setings created) = Counts.mk 0 0 0 0 0 /\
   expiry (NewCircuitBreaker setings created) = zeroTime) /\
  (zeroTime < t ->
   0 <= maxRequests (NewCircuitBreaker setings created) ->
   currentState
     (set_counts (NewCircuitBreaker setings created)
                 (Counts.onRequest (counts (NewCircuitBreaker setings created))))
     t tnow
   = (mkCB (timeout (NewCircuitBreaker setings created))
           (maxRequests (NewCircuitBreaker setings created))
           (readyToTrip (NewCircuitBreaker setings created))
           StateHalfOpen 1 (Counts.mk 0 0 0 0 0) zeroTime,
      StateHalfOpen, 1) /\
   beforeRequest (NewCircuitBreaker setings created) t tnow
   = (mkCB (timeout (NewCircuitBreaker setings created))
           (maxRequests (NewCircuitBreaker setings created))
           (readyToTrip (NewCircuitBreaker setings created))
           StateHalfOpen 1 (Counts.mk 0 0 0 0 0) zeroTime,
      1, None)).
Proof.
  split; [repeat split|].
  intros Ht Hmax.
  set (cb := NewCircuitBreaker setings created) in *.
  assert (Hcur :
    currentState (set_counts cb (Counts.onRequest (counts cb))) t tnow
    = (mkCB (timeout cb) (maxRequests cb) (readyToTrip cb)
            StateHalfOpen 1 (Counts.mk 0 0 0 0 0) zeroTime,
       StateHalfOpen, 1)).
  { rewrite currentState_due; [reflexivity | reflexivity | exact Ht]. }
  split; [exact Hcur|].
  assert (Hle : (maxRequests cb <? 0) = false) by (apply Z.ltb_ge; exact Hmax).
  unfold beforeRequest. rewrite Hcur.
  cbn [State_eqb andb maxRequests counts Counts.Requests].
  rewrite Hle. reflexivity.
Qed.

Lemma NewCircuitBreaker_first_admission_witness :
  beforeRequest cb_new 2000 2000
  = (mkCB defaultTimeOut 5 defaultReadyToTrip
          StateHalfOpen 1 (Counts.mk 0 0 0 0 0) zeroTime,
     1, None).
Proof.
  destruct (NewCircuitBreaker_first_admission defaultSettings 1000 2000 2000)
    as [_ Hfirst].
  destruct Hfirst as [_ Hadm].
  - reflexivity.
  - vm_compute. congruence.
  - exact Hadm.
Defined.

(** What the constructor makes of each option. *)
Lemma NewCircuitBreaker_config (setings : Settings) (created : Time) :
  timeout (NewCircuitBreaker setings created)
  = (if Timeout setings <=? 0 then 60 * Second else Timeout setings) /\
  maxRequests (NewCircuitBreaker setings created)
  = (if Timeout setings <=? 0 then 5 else MaxRequests setings) /\
  readyToTrip (NewCircuitBreaker setings created)
  = match ReadyToTrip setings with
    | None => fun c => 5 <=? Counts.ConsecutiveFail c
    | Some f => f
    end.
Proof. repeat split. Qed.

(** C3: the trial-call limit follows the [Timeout] option, not the
    [MaxRequests] option.  With a timeout of ten seconds and no count given
    the limit is 0, not 5; with no timeout given, a count of 3 is replaced
    by 5.  The timeout and the trip predicate do default on their own. *)
Theorem NewCircuitBreaker_maxRequests_follows_Timeout :
  maxRequests (NewCircuitBreaker (mkSettings (10 * Second) 0 None) 1000) = 0 /\
  maxRequests (NewCircuitBreaker (mkSettings 0 3 None) 1000) = 5 /\
  timeout (NewCircuitBreaker (mkSettings 0 3 None) 1000) = 60 * Second /\
  readyToTrip (NewCircuitBreaker (mkSettings (10 * Second) 0 None) 1000)
  = defaultReadyToTrip.
Proof. repeat split. Qed.

(** * Expiry *)

(** C4, as stated, fails on a return to [StateClosed]: the expiry is the
    zero time, not the time of the transition plus the timeout. *)
Lemma return_to_Closed_expiry_counterexample :
  state cb_probe = StateHalfOpen /\
  state cb_recovered = StateClosed /\
  expiry cb_recovered <> Time_Add 2500 (timeout cb_recovered) /\
  expiry (setState cb_probe StateClosed 2500)
  <> Time_Add 2500 (timeout cb_probe).
Proof. vm_compute. repeat split; congruence. Qed.

(** C4, amended: a transition into [StateOpen] sets the expiry to the time
    of the transition plus the timeout; a transition into [StateHalfOpen] or
    into [StateClosed] clears it to the zero time.  [refresh] sets the expiry
    to its argument plus the timeout when the breaker it is applied to is
    already in [StateClosed], and clears it otherwise. *)
Theorem expiry_after_transition (cb : CircuitBreaker) (s : State) (t : Time) :
  s <> state cb ->
  expiry (setState cb s t)
  = match s with
    | StateOpen => Time_Add t (timeout cb)
    | StateHalfOpen => zeroTime
    | StateClosed => zeroTime
    end /\
  expiry (newGeneration cb t)
  = (if State_eqb (state cb) StateOpen
     then Time_Add t (timeout cb) else zeroTime) /\
  expiry (refresh cb t)
  = match state cb with
    | StateClosed => Time_Add t (timeout cb)
    | _ => zeroTime
    end.
Proof.
  intros Hne. rewrite (setState_fresh cb s t Hne).
  split; [|split].
  - destruct s; reflexivity.
  - unfold newGeneration. simpl. destruct (state cb); reflexivity.
  - unfold refresh. simpl. destruct (state cb); reflexivity.
Qed.

Lemma expiry_after_transition_witness :
  expiry (setState cb_probe StateOpen 2500) = 2500 + 60 * Second /\
  expiry (setState cb_probe StateClosed 2500) = zeroTime /\
  expiry (setState cb_open StateHalfOpen 2500) = zeroTime.
Proof.
  destruct (expiry_after_transition cb_probe StateOpen 2500) as [H1 _];
    [discriminate|].
  destruct (expiry_after_transition cb_probe StateClosed 2500) as [H2 _];
    [discriminate|].
  destruct (expiry_after_transition cb_open StateHalfOpen 2500) as [H3 _];
    [discriminate|].
  rewrite H1, H2, H3. repeat split.
Defined.

(** * The open state *)

(** No admission check moves a breaker out of [StateOpen]: the call is
    rejected, whatever the clock reads. *)
Lemma beforeRequest_Open (cb : CircuitBreaker) (t tnow : Time) :
  state cb = StateOpen ->
  beforeRequest cb t tnow
  = (set_counts cb (Counts.onRequest (counts cb)), generation cb,
     Some ErrOpenState).
Proof.
  intros Hs. unfold beforeRequest.
  rewrite currentState_not_Closed by (simpl; rewrite Hs; discriminate).
  simpl. rewrite Hs. reflexivity.
Qed.

(** Nor does any recorded outcome. *)
Lemma afterRequest_Open (cb : CircuitBreaker) (before : Z) (isSuccess : bool)
    (now t tnow : Time) :
  state cb = StateOpen ->
  afterRequest cb before isSuccess now t tnow = cb.
Proof.
  intros Hs. unfold afterRequest.
  rewrite currentState_not_Closed by (rewrite Hs; discriminate).
  rewrite Hs.
  destruct (negb (generation cb =? before)); [reflexivity|].
  destruct isSuccess; reflexivity.
Qed.

(** C2: [cb_open] entered [StateOpen] at time 2500 with the default timeout.
    Checks before the expiry are rejected with [ErrOpenState]; so is the
    check at the expiry, and one a full day later, and the breaker is still
    in [StateOpen] afterwards. *)
Theorem Open_still_rejects_after_timeout :
  state cb_open = StateOpen /\
  expiry cb_open = Time_Add 2500 defaultTimeOut /\
  snd (beforeRequest cb_open 3000 3000) = Some ErrOpenState /\
  snd (beforeRequest cb_open (Time_Add 2500 defaultTimeOut)
                     (Time_Add 2500 defaultTimeOut))
  = Some ErrOpenState /\
  state (fst (fst (beforeRequest cb_open (Time_Add 2500 defaultTimeOut)
                                 (Time_Add 2500 defaultTimeOut))))
  = StateOpen /\
  snd (beforeRequest cb_open (86400 * Second) (86400 * Second))
  = Some ErrOpenState.
Proof. repeat split. Qed.

(** * Execute *)

Lemma Execute_rejected {V P : Type} (cb cb1 : CircuitBreaker)
    (req : unit -> ReqResult V P) (k : Clock) (g : Z) (e : error) :
  beforeRequest cb (before_t k) (before_tnow k) = (cb1, g, Some e) ->
  Execute cb req k = (cb1, Returns None (Some e)).
Proof. intros H. unfold Execute. rewrite H. reflexivity. Qed.

(** An admitted call that returns: the result and the error are handed back
    as they are, and [afterRequest] is given [true] exactly when the error is
    not nil. *)
Lemma Execute_admitted_returns {V P : Type} (cb cb1 : CircuitBreaker)
    (req : unit -> ReqResult V P) (k : Clock) (g : Z)
    (res : option V) (err : option error) :
  beforeRequest cb (before_t k) (before_tnow k) = (cb1, g, None) ->
  req tt = Returns res err ->
  Execute cb req k
  = (afterRequest cb1 g (err_not_nil err)
                  (after_now k) (after_t k) (after_tnow k),
     Returns res err).
Proof. intros H Hr. unfold Execute. rewrite H, Hr. reflexivity. Qed.

Lemma Execute_admitted_panics {V P : Type} (cb cb1 : CircuitBreaker)
    (req : unit -> ReqResult V P) (k : Clock) (g : Z) (e : P) :
  beforeRequest cb (before_t k) (before_tnow k) = (cb1, g, None) ->
  req tt = Panics e ->
  Execute cb req k
  = (afterRequest cb1 g false (after_now k) (after_t k) (after_tnow k),
     Panics e).
Proof. intros H Hr. unfold Execute. rewrite H, Hr. reflexivity. Qed.

(** C1: on a new breaker, an admitted operation that returns a nil error is
    recorded as a failure (the probing breaker opens at once), and one that
    returns an error is recorded as a success (one success, no failure).
    The results themselves are passed through. *)
Theorem Execute_records_inverted_outcome :
  snd (Execute cb_new req_ok clock_2000) = Returns (Some "body"%string) None /\
  fst (Execute cb_new req_ok clock_2000)
  = onFail cb_probe StateHalfOpen 2500 /\
  state (fst (Execute cb_new req_ok clock_2000)) = StateOpen /\
  snd (Execute cb_new req_err clock_2000)
  = Returns None (Some (OpError "connection refused")) /\
  fst (Execute cb_new req_err clock_2000)
  = onSuccess cb_probe StateHalfOpen 2500 /\
  counts (fst (Execute cb_new req_err clock_2000)) = Counts.mk 0 1 0 1 0.
Proof. repeat split. Qed.

(** * Trial calls in the half-open state *)

Lemma beforeRequest_HalfOpen (cb : CircuitBreaker) (t tnow : Time) :
  state cb = StateHalfOpen ->
  beforeRequest cb t tnow
  = (set_counts cb (Counts.onRequest (counts cb)), generation cb,
     if maxRequests cb <? incr (Counts.Requests (counts cb))
     then Some ErrTooManyRequests else None).
Proof.
  intros Hs. unfold beforeRequest.
  rewrite currentState_not_Closed by (simpl; rewrite Hs; discriminate).
  cbn [set_counts state generation maxRequests counts Counts.onRequest
       Counts.Requests].
  rewrite Hs. cbn [State_eqb andb].
  destruct (maxRequests cb <? incr (Counts.Requests (counts cb))); reflexivity.
Qed.

(** An outcome that leaves the breaker half-open has not touched the
    request counter or the limit. *)
Lemma afterRequest_stays_HalfOpen (cb : CircuitBreaker) (before : Z)
    (isSuccess : bool) (now t tnow : Time) :
  state cb = StateHalfOpen ->
  state (afterRequest cb before isSuccess now t tnow) = StateHalfOpen ->
  Counts.Requests (counts (afterRequest cb before isSuccess now t tnow))
  = Counts.Requests (counts cb) /\
  maxRequests (afterRequest cb before isSuccess now t tnow) = maxRequests cb.
Proof.
  intros Hs. unfold afterRequest.
  rewrite currentState_not_Closed by (rewrite Hs; discriminate).
  rewrite Hs.
  destruct (negb (generation cb =? before)); [intros _; split; reflexivity|].
  destruct isSuccess; simpl.
  - destruct (maxRequests cb <=? incr (Counts.ConsecutiveSuccess (counts cb))).
    + rewrite setState_fresh by (simpl; rewrite Hs; discriminate).
      simpl. discriminate.
    + intros _. split; reflexivity.
  - rewrite setState_fresh by (simpl; rewrite Hs; discriminate).
    simpl. discriminate.
Qed.

Lemma admissions_HalfOpen (evs : list Event) :
  forall cb : CircuitBreaker,
    state cb = StateHalfOpen ->
    0 <= Counts.Requests (counts cb) ->
    Counts.Requests (counts cb) + Z.of_nat (checks evs) <= int_max ->
    Forall (fun c => state c = StateHalfOpen) (states cb evs) ->
    admissions cb evs
    = verdicts (maxRequests cb) (Counts.Requests (counts cb)) (checks evs).
Proof.
  induction evs as [|ev rest IH]; intros cb Hs Hr Hbound Hall.
  - reflexivity.
  - simpl in Hall. inversion Hall as [|c l Hstep Hrest]; subst.
    destruct ev as [t tnow | before isSuccess now t tnow].
    + cbn [admissions checks verdicts].
      cbn [checks] in Hbound.
      assert (Hinc : incr (Counts.Requests (counts cb))
                     = Counts.Requests (counts cb) + 1).
      { apply incr_succ. unfold int_min. lia. }
      rewrite (IH (step cb (Admission t tnow))); try assumption.
      * unfold step. rewrite (beforeRequest_HalfOpen cb t tnow Hs).
        cbn [fst snd set_counts maxRequests counts Counts.onRequest
             Counts.Requests].
        rewrite Hinc. reflexivity.
      * unfold step. rewrite (beforeRequest_HalfOpen cb t tnow Hs).
        cbn [fst snd set_counts maxRequests counts Counts.onRequest
             Counts.Requests].
        rewrite Hinc. lia.
      * unfold step. rewrite (beforeRequest_HalfOpen cb t tnow Hs).
        cbn [fst snd set_counts maxRequests counts Counts.onRequest
             Counts.Requests].
        rewrite Hinc. lia.
    + cbn [admissions checks].
      cbn [checks] in Hbound.
      cbn [step] in Hstep, Hrest |- *.
      destruct (afterRequest_stays_HalfOpen cb before isSuccess now t tnow
                  Hs Hstep) as [Hreq Hmax].
      rewrite (IH _ Hstep); rewrite ?Hreq, ?Hmax; try assumption; reflexivity.
Qed.

Lemma verdicts_split (m : Z) (n : nat) :
  forall r : Z,
    0 <= r ->
    verdicts m r n
    = repeat None (Nat.min n (Z.to_nat (m - r)))
      ++ repeat (Some ErrTooManyRequests) (n - Z.to_nat (m - r)).
Proof.
  induction n as [|n IH]; intros r Hr.
  - reflexivity.
  - cbn [verdicts]. rewrite (IH (r + 1)) by lia.
    destruct (m <? r + 1) eqn:Hlt.
    + apply Z.ltb_lt in Hlt.
      replace (Z.to_nat (m - r)) with O by lia.
      replace (Z.to_nat (m - (r + 1))) with O by lia.
      rewrite !Nat.min_0_r, !Nat.sub_0_r. reflexivity.
    + apply Z.ltb_ge in Hlt.
      replace (Z.to_nat (m - r)) with (S (Z.to_nat (m - (r + 1)))) by lia.
      reflexivity.
Qed.

(** Take a breaker that has just entered [StateHalfOpen] (request
    counter at zero, as every transition leaves it) and any history of
    admission checks and recorded outcomes after which the breaker is still
    half-open at every point.  Then the first [maxRequests] checks of the
    history are admitted and every later one is rejected with
    [ErrTooManyRequests]. *)
Theorem HalfOpen_admits_exactly_maxRequests
    (cb : CircuitBreaker) (evs : list Event) :
  state cb = StateHalfOpen ->
  Counts.Requests (counts cb) = 0 ->
  Z.of_nat (checks evs) <= int_max ->
  Forall (fun c => state c = StateHalfOpen) (states cb evs) ->
  admissions cb evs
  = repeat None (Nat.min (checks evs) (Z.to_nat (maxRequests cb)))
    ++ repeat (Some ErrTooManyRequests)
              (checks evs - Z.to_nat (maxRequests cb)).
Proof.
  intros Hs Hr Hbound Hall.
  rewrite (admissions_HalfOpen evs cb Hs); try assumption; try lia.
  rewrite Hr, verdicts_split by lia.
  rewrite Z.sub_0_r. reflexivity.
Qed.

Lemma HalfOpen_admits_exactly_maxRequests_witness :
  admissions cb_probe probe_history
  = [ None; None; None; None; None;
      Some ErrTooManyRequests; Some ErrTooManyRequests ].
Proof.
  rewrite (HalfOpen_admits_exactly_maxRequests cb_probe probe_history).
  - reflexivity.
  - reflexivity.
  - reflexivity.
  - vm_compute. congruence.
  - repeat constructor.
Defined.

(** C6: the admission check that moves a breaker into [StateHalfOpen] is
    itself decided as a half-open trial, after the transition has cleared
    the request it counted.  On a new breaker with limit 5, six checks in a
    row are admitted, all left in [StateHalfOpen] under tag 1, before the
    seventh is rejected; with limit 0 one call is admitted.  When the
    breaker enters [StateHalfOpen] while an outcome is recorded, five of
    the same checks are admitted and the sixth is rejected. *)
Theorem entering_check_is_an_extra_trial :
  maxRequests cb_new = 5 /\
  observed cb_new seven_checks
  = [ (StateHalfOpen, 1, None); (StateHalfOpen, 1, None);
      (StateHalfOpen, 1, None); (StateHalfOpen, 1, None);
      (StateHalfOpen, 1, None); (StateHalfOpen, 1, None);
      (StateHalfOpen, 1, Some ErrTooManyRequests) ] /\
  maxRequests cb_limit0 = 0 /\
  observed cb_limit0 [ Admission 2000 2000; Admission 2100 2100 ]
  = [ (StateHalfOpen, 1, None);
      (StateHalfOpen, 1, Some ErrTooManyRequests) ] /\
  state cb_recovered = StateClosed /\
  observed cb_recovered (Outcome 1 true 2900 2900 2900 :: seven_checks)
  = [ (StateHalfOpen, 3, None); (StateHalfOpen, 3, None);
      (StateHalfOpen, 3, None); (StateHalfOpen, 3, None);
      (StateHalfOpen, 3, None);
      (StateHalfOpen, 3, Some ErrTooManyRequests);
      (StateHalfOpen, 3, Some ErrTooManyRequests) ].
Proof. repeat split. Qed.

(** * Histories: what every call keeps *)

Lemma run_app (cb : CircuitBreaker) (evs1 evs2 : list Event) :
  run cb (evs1 ++ evs2) = run (run cb evs1) evs2.
Proof. unfold run. apply fold_left_app. Qed.

Lemma run_cons (cb : CircuitBreaker) (ev : Event) (evs : list Event) :
  run cb (ev :: evs) = run (step cb ev) evs.
Proof. reflexivity. Qed.

Lemma setState_same_config (cb : CircuitBreaker) (s : State) (t : Time) :
  same_config (setState cb s t) cb.
Proof.
  unfold same_config, setState, newGeneration.
  destruct s, (state cb); simpl; repeat split.
Qed.

Lemma step_same_config (cb : CircuitBreaker) (ev : Event) :
  same_config (step cb ev) cb.
Proof.
  unfold same_config.
  destruct cb as [to mr rt st g c e].
  destruct ev as [t tnow | before isSuccess now t tnow];
    unfold step, beforeRequest, afterRequest, currentState,
           onSuccess, onFail, setState, newGeneration.
  - destruct st; simpl; repeat break_if; simpl; repeat split.
  - destruct st, isSuccess; simpl; repeat break_if; simpl; repeat split.
Qed.

Lemma run_same_config (evs : list Event) :
  forall cb : CircuitBreaker, same_config (run cb evs) cb.
Proof.
  induction evs as [|ev rest IH]; intros cb.
  - repeat split.
  - rewrite run_cons.
    destruct (IH (step cb ev)) as (H1 & H2 & H3).
    destruct (step_same_config cb ev) as (G1 & G2 & G3).
    repeat split; congruence.
Qed.

Lemma setState_expiry_ok (cb : CircuitBreaker) (s : State) (t : Time) :
  expiry_ok cb -> expiry_ok (setState cb s t).
Proof.
  intros Hok. unfold setState.
  destruct (State_eqb s (state cb)); [exact Hok|].
  unfold expiry_ok, newGeneration. destruct s; simpl; auto.
Qed.

Lemma step_expiry_ok (cb : CircuitBreaker) (ev : Event) :
  expiry_ok cb -> expiry_ok (step cb ev).
Proof.
  intros Hok.
  assert (Hcur : forall c t tnow,
             expiry_ok c -> expiry_ok (fst (fst (currentState c t tnow)))).
  { intros c t tnow Hc. unfold currentState.
    break_if; simpl; [apply setState_expiry_ok|]; exact Hc. }
  destruct ev as [t tnow | before isSuccess now t tnow].
  - unfold step, beforeRequest.
    specialize (Hcur (set_counts cb (Counts.onRequest (counts cb))) t tnow Hok).
    destruct (currentState _ t tnow) as [[c s] g]. simpl in Hcur.
    repeat break_if; exact Hcur.
  - unfold step, afterRequest.
    specialize (Hcur cb t tnow Hok).
    destruct (currentState cb t tnow) as [[c s] g]. simpl in Hcur.
    break_if; [exact Hcur|].
    destruct isSuccess, s; simpl; repeat break_if;
      try apply setState_expiry_ok; exact Hcur.
Qed.

Lemma run_expiry_ok (evs : list Event) :
  forall cb : CircuitBreaker, expiry_ok cb -> expiry_ok (run cb evs).
Proof.
  induction evs as [|ev rest IH]; intros cb Hok; [exact Hok|].
  rewrite run_cons. apply IH, step_expiry_ok, Hok.
Qed.

Lemma NewCircuitBreaker_expiry_ok (setings : Settings) (created : Time) :
  expiry_ok (NewCircuitBreaker setings created).
Proof. right. reflexivity. Qed.

(** X1: no history of admission checks and recorded outcomes changes the
    configuration: timeout, trial limit and trip predicate are those the
    breaker started with. *)
Theorem run_keeps_configuration (cb : CircuitBreaker) (evs : list Event) :
  timeout (run cb evs) = timeout cb /\
  maxRequests (run cb evs) = maxRequests cb /\
  readyToTrip (run cb evs) = readyToTrip cb.
Proof. exact (run_same_config evs cb). Qed.

(** X2: whatever history a breaker made by [NewCircuitBreaker] has gone
    through, it carries an expiry only while it is open: in [StateClosed]
    and in [StateHalfOpen] the expiry is the zero time. *)
Theorem reachable_expiry_zero_unless_Open
    (setings : Settings) (created : Time) (evs : list Event) :
  state (run (NewCircuitBreaker setings created) evs) = StateOpen \/
  expiry (run (NewCircuitBreaker setings created) evs) = zeroTime.
Proof. apply run_expiry_ok, NewCircuitBreaker_expiry_ok. Qed.

Lemma beforeRequest_not_Closed (cb : CircuitBreaker) (t tnow : Time) :
  expiry_ok cb -> zeroTime < t ->
  state (fst (fst (beforeRequest cb t tnow))) <> StateClosed.
Proof.
  intros Hok Ht. destruct cb as [to mr rt st g c e].
  unfold beforeRequest, currentState, setState, newGeneration.
  destruct st; simpl; try (repeat break_if; simpl; discriminate).
  destruct Hok as [Hok | Hok]; simpl in Hok; [discriminate|].
  subst e. unfold Time_Before.
  assert (Hb : (zeroTime <? t) = true) by (apply Z.ltb_lt; exact Ht).
  rewrite Hb. simpl. repeat break_if; simpl; discriminate.
Qed.

Lemma beforeRequest_admitted (cb : CircuitBreaker) (t tnow : Time) :
  snd (beforeRequest cb t tnow) = None ->
  state (fst (fst (beforeRequest cb t tnow))) <> StateOpen /\
  (state (fst (fst (beforeRequest cb t tnow))) = StateHalfOpen ->
   Counts.Requests (counts (fst (fst (beforeRequest cb t tnow))))
   <= maxRequests (fst (fst (beforeRequest cb t tnow)))).
Proof.
  destruct cb as [to mr rt st g c e].
  unfold beforeRequest, currentState, setState, newGeneration.
  destruct st; simpl; repeat break_if; simpl in *; intros H;
    try discriminate; (split; [discriminate|]); intros Hs;
    try discriminate; apply Z.ltb_ge; assumption.
Qed.

(** X3: on a breaker made by [NewCircuitBreaker] and taken through any
    history, an admission check at a time after the zero time never leaves
    the breaker closed; a call that is admitted is admitted as a half-open
    trial, within the trial limit. *)
Theorem reachable_admission_is_HalfOpen_trial
    (setings : Settings) (created : Time) (evs : list Event) (t tnow : Time) :
  zeroTime < t ->
  state (fst (fst (beforeRequest (run (NewCircuitBreaker setings created) evs)
                                 t tnow)))
  <> StateClosed /\
  (snd (beforeRequest (run (NewCircuitBreaker setings created) evs) t tnow)
   = None ->
   state (fst (fst (beforeRequest (run (NewCircuitBreaker setings created) evs)
                                  t tnow)))
   = StateHalfOpen /\
   Counts.Requests
     (counts (fst (fst (beforeRequest
                          (run (NewCircuitBreaker setings created) evs)
                          t tnow))))
   <= maxRequests (NewCircuitBreaker setings created)).
Proof.
  intros Ht.
  set (cb := run (NewCircuitBreaker setings created) evs).
  assert (Hok : expiry_ok cb)
    by apply run_expiry_ok, NewCircuitBreaker_expiry_ok.
  pose proof (beforeRequest_not_Closed cb t tnow Hok Ht) as Hnc.
  split; [exact Hnc|].
  intros Hadm.
  destruct (beforeRequest_admitted cb t tnow Hadm) as [Hno Hlim].
  assert (Hs : state (fst (fst (beforeRequest cb t tnow))) = StateHalfOpen).
  { destruct (state (fst (fst (beforeRequest cb t tnow)))); congruence. }
  split; [exact Hs|].
  specialize (Hlim Hs).
  destruct (step_same_config cb (Admission t tnow)) as (_ & Hm & _).
  simpl in Hm. rewrite Hm in Hlim.
  destruct (run_same_config evs (NewCircuitBreaker setings created))
    as (_ & Hm' & _).
  fold cb in Hm'. rewrite Hm' in Hlim. exact Hlim.
Qed.

Lemma reachable_admission_is_HalfOpen_trial_witness :
  state (fst (fst (beforeRequest (run cb_new probe_history) 3000 3000)))
  <> StateClosed.
Proof.
  destruct (reachable_admission_is_HalfOpen_trial
              defaultSettings 1000 probe_history 3000 3000) as [H _].
  - reflexivity.
  - exact H.
Defined.

(** * The trip predicate *)

Lemma step_ignores_readyToTrip
    (cb : CircuitBreaker) (p : Counts.t -> bool) (ev : Event) :
  expiry_ok cb -> zeroTime < event_time ev ->
  step (with_readyToTrip cb p) ev = with_readyToTrip (step cb ev) p /\
  admissions (with_readyToTrip cb p) [ev] = admissions cb [ev].
Proof.
  intros Hok Ht. destruct cb as [to mr rt st g c e].
  assert (He : st = StateClosed -> (e <? event_time ev) = true).
  { intros ->. destruct Hok as [Hok | Hok]; simpl in Hok; [discriminate|].
    subst e. apply Z.ltb_lt. exact Ht. }
  destruct ev as [t tnow | before isSuccess now t tnow]; simpl in He;
    unfold admissions, step, beforeRequest, afterRequest, currentState,
           onSuccess, onFail, setState, newGeneration, with_readyToTrip,
           Time_Before.
  - destruct st; simpl; try rewrite (He eq_refl); simpl;
      repeat break_if; simpl; split; reflexivity.
  - destruct st, isSuccess; simpl; try rewrite (He eq_refl); simpl;
      repeat break_if; simpl; split; reflexivity.
Qed.

Lemma run_ignores_readyToTrip (p : Counts.t -> bool) (evs : list Event) :
  forall cb : CircuitBreaker,
    expiry_ok cb ->
    Forall (fun ev => zeroTime < event_time ev) evs ->
    run (with_readyToTrip cb p) evs = with_readyToTrip (run cb evs) p /\
    admissions (with_readyToTrip cb p) evs = admissions cb evs.
Proof.
  induction evs as [|ev rest IH]; intros cb Hok Hall.
  - split; reflexivity.
  - inversion Hall as [|x l Hev Hrest]; subst.
    destruct (step_ignores_readyToTrip cb p ev Hok Hev) as [Hstep Hadm].
    destruct (IH (step cb ev) (step_expiry_ok cb ev Hok) Hrest) as [Hrun Hadms].
    rewrite !run_cons, Hstep. split; [exact Hrun|].
    destruct ev as [t tnow | before isSuccess now t tnow].
    + cbn [admissions] in Hadm |- *. rewrite Hstep, Hadms.
      injection Hadm as Hadm. rewrite Hadm. reflexivity.
    + cbn [admissions]. rewrite Hstep, Hadms. reflexivity.
Qed.

(** X4: take a breaker made by [NewCircuitBreaker] and any history whose
    clock readings are after the zero time.  Replacing the trip predicate by
    any other one changes neither the verdict of any admission check nor the
    breaker at the end, apart from the predicate it stores: a closed breaker
    has the zero expiry, so it is half-open by the time an outcome is
    recorded, and the predicate is not consulted. *)
Theorem reachable_history_ignores_readyToTrip
    (setings : Settings) (created : Time) (p : Counts.t -> bool)
    (evs : list Event) :
  Forall (fun ev => zeroTime < event_time ev) evs ->
  admissions (with_readyToTrip (NewCircuitBreaker setings created) p) evs
  = admissions (NewCircuitBreaker setings created) evs /\
  run (with_readyToTrip (NewCircuitBreaker setings created) p) evs
  = with_readyToTrip (run (NewCircuitBreaker setings created) evs) p.
Proof.
  intros Hall.
  destruct (run_ignores_readyToTrip p evs (NewCircuitBreaker setings created)
              (NewCircuitBreaker_expiry_ok setings created) Hall) as [H1 H2].
  split; assumption.
Qed.

Lemma reachable_history_ignores_readyToTrip_witness :
  admissions (with_readyToTrip cb_new (fun _ => true))
             (Admission 2000 2000 :: probe_history)
  = admissions cb_new (Admission 2000 2000 :: probe_history).
Proof.
  destruct (reachable_history_ignores_readyToTrip
              defaultSettings 1000 (fun _ => true)
              (Admission 2000 2000 :: probe_history)) as [H _].
  - repeat constructor.
  - exact H.
Defined.

(** X10: with the default trip predicate no recorded success opens the
    breaker, in any state and at any time: [Counts.onSuccess] resets the
    failure streak before the predicate reads it. *)
Theorem default_predicate_never_trips
    (cb : CircuitBreaker) (before : Z) (now t tnow : Time) :
  readyToTrip cb = defaultReadyToTrip ->
  state cb <> StateOpen ->
  state (afterRequest cb before true now t tnow) <> StateOpen.
Proof.
  intros Hp Hs. destruct cb as [to mr rt st g c e]. simpl in Hp, Hs. subst rt.
  unfold afterRequest, currentState, onSuccess, setState, newGeneration,
         defaultReadyToTrip.
  destruct st; simpl; try congruence;
    repeat break_if; simpl; discriminate.
Qed.

Lemma default_predicate_never_trips_witness :
  state (afterRequest
           (mkCB defaultTimeOut 5 defaultReadyToTrip StateClosed 0
                 (Counts.mk 9 0 9 0 9) 5000)
           0 true 3000 3000 3000)
  <> StateOpen.
Proof.
  apply default_predicate_never_trips.
  - reflexivity.
  - discriminate.
Defined.

(** * Open is final *)

Lemma step_Open (cb : CircuitBreaker) (ev : Event) :
  state cb = StateOpen ->
  state (step cb ev) = StateOpen /\
  generation (step cb ev) = generation cb /\
  expiry (step cb ev) = expiry cb /\
  Counts.TotalSuccess (counts (step cb ev)) = Counts.TotalSuccess (counts cb) /\
  Counts.TotalFail (counts (step cb ev)) = Counts.TotalFail (counts cb) /\
  Counts.ConsecutiveSuccess (counts (step cb ev))
  = Counts.ConsecutiveSuccess (counts cb) /\
  Counts.ConsecutiveFail (counts (step cb ev))
  = Counts.ConsecutiveFail (counts cb).
Proof.
  intros Hs. destruct ev as [t tnow | before isSuccess now t tnow].
  - unfold step. rewrite (beforeRequest_Open cb t tnow Hs). simpl.
    repeat split. exact Hs.
  - unfold step. rewrite (afterRequest_Open cb before isSuccess now t tnow Hs).
    repeat split. exact Hs.
Qed.

Lemma run_Open (evs : list Event) :
  forall cb : CircuitBreaker,
    state cb = StateOpen ->
    (state (run cb evs) = StateOpen /\
     generation (run cb evs) = generation cb /\
     expiry (run cb evs) = expiry cb /\
     Counts.TotalSuccess (counts (run cb evs))
     = Counts.TotalSuccess (counts cb) /\
     Counts.TotalFail (counts (run cb evs)) = Counts.TotalFail (counts cb) /\
     Counts.ConsecutiveSuccess (counts (run cb evs))
     = Counts.ConsecutiveSuccess (counts cb) /\
     Counts.ConsecutiveFail (counts (run cb evs))
     = Counts.ConsecutiveFail (counts cb)) /\
    admissions cb evs = repeat (Some ErrOpenState) (checks evs).
Proof.
  induction evs as [|ev rest IH]; intros cb Hs.
  - repeat split. exact Hs.
  - destruct (step_Open cb ev Hs) as (S1 & S2 & S3 & S4 & S5 & S6 & S7).
    destruct (IH (step cb ev) S1) as ((R1 & R2 & R3 & R4 & R5 & R6 & R7) & Ra).
    rewrite run_cons. split.
    + repeat split; congruence.
    + destruct ev as [t tnow | before isSuccess now t tnow];
        cbn [admissions checks repeat]; rewrite Ra; [|reflexivity].
      rewrite (beforeRequest_Open cb t tnow Hs). reflexivity.
Qed.

(** X5: once a breaker is in [StateOpen] it stays there.  Through any
    history, at any clock readings, every admission check is rejected with
    [ErrOpenState], and state, generation, expiry and the four outcome
    counters keep their values; [Execute] returns the rejection without
    looking at the operation. *)
Theorem Open_is_final (cb : CircuitBreaker) (evs : list Event) :
  state cb = StateOpen ->
  admissions cb evs = repeat (Some ErrOpenState) (checks evs) /\
  state (run cb evs) = StateOpen /\
  generation (run cb evs) = generation cb /\
  expiry (run cb evs) = expiry cb /\
  Counts.TotalSuccess (counts (run cb evs)) = Counts.TotalSuccess (counts cb) /\
  Counts.TotalFail (counts (run cb evs)) = Counts.TotalFail (counts cb) /\
  Counts.ConsecutiveSuccess (counts (run cb evs))
  = Counts.ConsecutiveSuccess (counts cb) /\
  Counts.ConsecutiveFail (counts (run cb evs))
  = Counts.ConsecutiveFail (counts cb) /\
  (forall (V P : Type) (req : unit -> ReqResult V P) (k : Clock),
      Execute cb req k
      = (set_counts cb (Counts.onRequest (counts cb)),
         Returns None (Some ErrOpenState))).
Proof.
  intros Hs.
  destruct (run_Open evs cb Hs) as ((R1 & R2 & R3 & R4 & R5 & R6 & R7) & Ra).
  repeat split; try assumption.
  intros V P req k. unfold Execute.
  rewrite (beforeRequest_Open cb _ _ Hs). reflexivity.
Qed.

Lemma Open_is_final_witness :
  admissions cb_open probe_history = repeat (Some ErrOpenState) 7 /\
  state (run cb_open probe_history) = StateOpen.
Proof.
  destruct (Open_is_final cb_open probe_history) as (Ha & Hs & _).
  - reflexivity.
  - split; [exact Ha | exact Hs].
Defined.

(** * Generations *)

Lemma step_generation (cb : CircuitBreaker) (ev : Event) :
  generation (step cb ev) = generation cb \/
  generation (step cb ev) = incr (generation cb) \/
  generation (step cb ev) = incr (incr (generation cb)).
Proof.
  destruct cb as [to mr rt st g c e].
  destruct ev as [t tnow | before isSuccess now t tnow];
    unfold step, beforeRequest, afterRequest, currentState,
           onSuccess, onFail, setState, newGeneration.
  - destruct st; simpl; repeat break_if; simpl; auto.
  - destruct st, isSuccess; simpl; repeat break_if; simpl; auto.
Qed.

Lemma run_generation (evs : list Event) :
  forall cb : CircuitBreaker,
    int_min <= generation cb ->
    generation cb + 2 * Z.of_nat (List.length evs) <= int_max ->
    generation cb <= generation (run cb evs)
    <= generation cb + 2 * Z.of_nat (List.length evs).
Proof.
  induction evs as [|ev rest IH]; intros cb Hmin Hmax.
  - simpl. lia.
  - rewrite run_cons. cbn [List.length] in *.
    assert (Hstep : generation cb <= generation (step cb ev)
                    <= generation cb + 2).
    { destruct (step_generation cb ev) as [H | [H | H]]; rewrite H.
      - lia.
      - rewrite incr_succ by lia. lia.
      - rewrite (incr_succ (generation cb)) by lia.
        rewrite incr_succ by lia. lia. }
    specialize (IH (step cb ev)).
    lia.
Qed.

(** X6: short of overflow the generation never goes back.  An admission
    check adds at most one to it and a recorded outcome at most two (the lazy
    transition and the one the outcome causes), so after a history of [n]
    events it lies between its old value and that value plus [2 * n]. *)
Theorem generation_never_decreases (cb : CircuitBreaker) (evs : list Event) :
  int_min <= generation cb ->
  generation cb + 2 * Z.of_nat (List.length evs) <= int_max ->
  generation cb <= generation (run cb evs)
  <= generation cb + 2 * Z.of_nat (List.length evs).
Proof. apply run_generation. Qed.

Lemma generation_never_decreases_witness :
  1 <= generation (run cb_probe probe_history) <= 1 + 2 * 9.
Proof.
  apply (generation_never_decreases cb_probe probe_history).
  - vm_compute. congruence.
  - vm_compute. congruence.
Defined.

Lemma beforeRequest_shape (cb : CircuitBreaker) (t tnow : Time) :
  beforeRequest cb t tnow
  = (let cb1 := resolved (set_counts cb (Counts.onRequest (counts cb))) t tnow in
     (cb1, generation cb1,
      if State_eqb (state cb1) StateOpen then Some ErrOpenState
      else if State_eqb (state cb1) StateHalfOpen
              && (maxRequests cb <? Counts.Requests (counts cb1))
           then Some ErrTooManyRequests
           else None)).
Proof.
  unfold beforeRequest. rewrite currentState_outputs. cbv zeta.
  set (cb1 := resolved (set_counts cb (Counts.onRequest (counts cb))) t tnow).
  assert (Hm : maxRequests cb1 = maxRequests cb).
  { unfold cb1, resolved, currentState.
    break_if; simpl; [|reflexivity].
    destruct (setState_same_config
                (set_counts cb (Counts.onRequest (counts cb)))
                StateHalfOpen tnow) as (_ & H & _).
    exact H. }
  rewrite Hm.
  destruct (State_eqb (state cb1) StateOpen); [reflexivity|].
  destruct (State_eqb (state cb1) StateHalfOpen
            && (maxRequests cb <? Counts.Requests (counts cb1)));
    reflexivity.
Qed.

(** X7: the verdict of an admission check tells the state the check leaves
    the breaker in.  The tag returned is the generation of that breaker;
    the error is [ErrOpenState] exactly when it is open, and
    [ErrTooManyRequests] exactly when it is half-open with more requests
    counted than the limit; no other error is returned. *)
Theorem beforeRequest_verdict (cb : CircuitBreaker) (t tnow : Time) :
  snd (fst (beforeRequest cb t tnow))
  = generation (fst (fst (beforeRequest cb t tnow))) /\
  (snd (beforeRequest cb t tnow) = Some ErrOpenState <->
   state (fst (fst (beforeRequest cb t tnow))) = StateOpen) /\
  (snd (beforeRequest cb t tnow) = Some ErrTooManyRequests <->
   state (fst (fst (beforeRequest cb t tnow))) = StateHalfOpen /\
   maxRequests cb
   < Counts.Requests (counts (fst (fst (beforeRequest cb t tnow))))) /\
  (forall msg : string,
      snd (beforeRequest cb t tnow) <> Some (OpError msg)).
Proof.
  rewrite beforeRequest_shape. cbv zeta.
  set (cb1 := resolved (set_counts cb (Counts.onRequest (counts cb))) t tnow).
  cbn [fst snd].
  split; [reflexivity|].
  destruct (state cb1) eqn:Hs; cbn [State_eqb andb].
  - destruct (maxRequests cb <? Counts.Requests (counts cb1)) eqn:Hlt.
    + apply Z.ltb_lt in Hlt.
      repeat split; try discriminate; try assumption; intros; discriminate.
    + apply Z.ltb_ge in Hlt.
      repeat split; try discriminate; try (intros [_ H]; lia);
        intros; discriminate.
  - repeat split; try discriminate; try (intros [H _]; discriminate);
      intros; discriminate.
  - repeat split; try discriminate; try (intros [H _]; discriminate);
      intros; discriminate.
Qed.

(** * Accounting of admitted calls *)

Lemma afterRequest_HalfOpen_current (cb : CircuitBreaker) (isSuccess : bool)
    (now t tnow : Time) :
  state cb = StateHalfOpen ->
  afterRequest cb (generation cb) isSuccess now t tnow
  = if isSuccess then onSuccess cb StateHalfOpen now
    else onFail cb StateHalfOpen now.
Proof.
  intros Hs. unfold afterRequest.
  rewrite currentState_not_Closed by (rewrite Hs; discriminate).
  rewrite Z.eqb_refl, Hs. reflexivity.
Qed.

Lemma admitted_trial (cb cb1 : CircuitBreaker) (g : Z) (t tnow : Time) :
  expiry_ok cb -> zeroTime < t ->
  beforeRequest cb t tnow = (cb1, g, None) ->
  state cb1 = StateHalfOpen /\ g = generation cb1.
Proof.
  intros Hok Ht Hb.
  pose proof (beforeRequest_not_Closed cb t tnow Hok Ht) as Hnc.
  assert (Hadm : snd (beforeRequest cb t tnow) = None)
    by (rewrite Hb; reflexivity).
  destruct (beforeRequest_admitted cb _ _ Hadm) as [Hno _].
  rewrite Hb in Hnc, Hno. cbn [fst] in Hnc, Hno.
  split; [destruct (state cb1); congruence|].
  pose proof (beforeRequest_shape cb t tnow) as Hsh.
  rewrite Hb in Hsh. cbv zeta in Hsh.
  injection Hsh as H1 H2 _. rewrite H2, <- H1. reflexivity.
Qed.

(** X8: take a breaker whose expiry is zero unless it is open, as every
    breaker made by [NewCircuitBreaker] is, and a call admitted at a time
    after the zero time, during which no other call takes the lock of the
    breaker and whose operation returns or panics.  [Execute] hands back
    what the operation returned, or its panic, and accounts the call exactly
    once, as a half-open trial: through [onSuccess] when the operation
    returned an error that is not nil, through [onFail] when it returned a
    nil error or panicked. *)
Theorem Execute_admitted_is_HalfOpen_trial
    {V P : Type} (cb cb1 : CircuitBreaker) (g : Z)
    (req : unit -> ReqResult V P) (k : Clock) :
  expiry_ok cb ->
  zeroTime < before_t k ->
  beforeRequest cb (before_t k) (before_tnow k) = (cb1, g, None) ->
  Execute cb req k
  = (if accounted_as_success (req tt)
     then onSuccess cb1 StateHalfOpen (after_now k)
     else onFail cb1 StateHalfOpen (after_now k),
     req tt).
Proof.
  intros Hok Ht Hb.
  destruct (admitted_trial cb cb1 g _ _ Hok Ht Hb) as [Hs Hg].
  unfold Execute. rewrite Hb, Hg.
  destruct (req tt) as [res err | e]; cbn [accounted_as_success];
    rewrite (afterRequest_HalfOpen_current cb1 _ _ _ _ Hs); reflexivity.
Qed.

Lemma Execute_admitted_is_HalfOpen_trial_witness :
  Execute cb_new req_err clock_2000
  = (onSuccess cb_probe StateHalfOpen 2500,
     Returns None (Some (OpError "connection refused"))).
Proof.
  apply (Execute_admitted_is_HalfOpen_trial cb_new cb_probe 1 req_err
                                             clock_2000).
  - right. reflexivity.
  - reflexivity.
  - reflexivity.
Defined.

(** X12: a failure recorded under the current generation of a half-open
    breaker opens it at once: new generation, all counters at zero (trial
    successes included), expiry at the time of the failure plus the
    timeout. *)
Theorem HalfOpen_failure_reopens (cb : CircuitBreaker) (now t tnow : Time) :
  state cb = StateHalfOpen ->
  afterRequest cb (generation cb) false now t tnow
  = mkCB (timeout cb) (maxRequests cb) (readyToTrip cb) StateOpen
         (incr (generation cb)) (Counts.mk 0 0 0 0 0)
         (Time_Add now (timeout cb)).
Proof.
  intros Hs. rewrite (afterRequest_HalfOpen_current cb false now t tnow Hs).
  unfold onFail.
  rewrite setState_fresh by (simpl; rewrite Hs; discriminate).
  reflexivity.
Qed.

Lemma HalfOpen_failure_reopens_witness :
  afterRequest (run cb_probe probe_history) 1 false 3000 3000 3000
  = mkCB defaultTimeOut 5 defaultReadyToTrip StateOpen 2
         (Counts.mk 0 0 0 0 0) (3000 + 60 * Second).
Proof.
  apply (HalfOpen_failure_reopens (run cb_probe probe_history) 3000 3000 3000).
  reflexivity.
Defined.

(** X14: the clock reading taken inside [currentState] has no effect: it
    only reaches a transition into [StateHalfOpen], which does not use it.
    An admission check depends on one reading of the clock and a recorded
    outcome on two. *)
Theorem inner_clock_reading_unused
    (cb : CircuitBreaker) (before : Z) (isSuccess : bool)
    (now t tnow tnow' : Time) :
  currentState cb t tnow = currentState cb t tnow' /\
  beforeRequest cb t tnow = beforeRequest cb t tnow' /\
  afterRequest cb before isSuccess now t tnow
  = afterRequest cb before isSuccess now t tnow'.
Proof.
  assert (Hcur : forall c, currentState c t tnow = currentState c t tnow').
  { intros c. unfold currentState, setState, newGeneration.
    destruct (State_eqb (state c) StateClosed && Time_Before (expiry c) t);
      [|reflexivity].
    destruct (State_eqb StateHalfOpen (state c)); reflexivity. }
  split; [apply Hcur|]. split.
  - unfold beforeRequest. rewrite Hcur. reflexivity.
  - unfold afterRequest. rewrite Hcur. reflexivity.
Qed.

(** * Recovery *)

Lemma step_success_below_limit (cb : CircuitBreaker) (now t tnow : Time) :
  state cb = StateHalfOpen ->
  0 <= Counts.ConsecutiveSuccess (counts cb) < int_max ->
  Counts.ConsecutiveSuccess (counts cb) + 1 < maxRequests cb ->
  step cb (Outcome (generation cb) true now t tnow)
  = set_counts cb (Counts.onSuccess (counts cb)).
Proof.
  intros Hs Hcs Hlt. cbn [step].
  rewrite (afterRequest_HalfOpen_current cb true now t tnow Hs).
  unfold onSuccess.
  cbn [set_counts maxRequests counts Counts.onSuccess Counts.ConsecutiveSuccess].
  rewrite incr_succ by (unfold int_min; lia).
  assert (Hb : (maxRequests cb <=? Counts.ConsecutiveSuccess (counts cb) + 1)
               = false) by (apply Z.leb_gt; lia).
  rewrite Hb. reflexivity.
Qed.

Lemma step_success_at_limit (cb : CircuitBreaker) (now t tnow : Time) :
  state cb = StateHalfOpen ->
  0 <= Counts.ConsecutiveSuccess (counts cb) < int_max ->
  maxRequests cb <= Counts.ConsecutiveSuccess (counts cb) + 1 ->
  step cb (Outcome (generation cb) true now t tnow)
  = mkCB (timeout cb) (maxRequests cb) (readyToTrip cb) StateClosed
         (incr (generation cb)) (Counts.mk 0 0 0 0 0) zeroTime.
Proof.
  intros Hs Hcs Hle. cbn [step].
  rewrite (afterRequest_HalfOpen_current cb true now t tnow Hs).
  unfold onSuccess.
  cbn [set_counts maxRequests counts Counts.onSuccess Counts.ConsecutiveSuccess].
  rewrite incr_succ by (unfold int_min; lia).
  assert (Hb : (maxRequests cb <=? Counts.ConsecutiveSuccess (counts cb) + 1)
               = true) by (apply Z.leb_le; lia).
  rewrite Hb.
  rewrite setState_fresh by (simpl; rewrite Hs; discriminate).
  reflexivity.
Qed.

Lemma successes_below_limit (clks : list (Time * Time * Time)) :
  forall cb : CircuitBreaker,
    state cb = StateHalfOpen ->
    0 <= Counts.ConsecutiveSuccess (counts cb) ->
    Counts.ConsecutiveSuccess (counts cb) + Z.of_nat (List.length clks)
    < maxRequests cb ->
    Counts.ConsecutiveSuccess (counts cb) + Z.of_nat (List.length clks)
    <= int_max ->
    state (run cb (successes (generation cb) clks)) = StateHalfOpen /\
    generation (run cb (successes (generation cb) clks)) = generation cb /\
    Counts.ConsecutiveSuccess (counts (run cb (successes (generation cb) clks)))
    = Counts.ConsecutiveSuccess (counts cb) + Z.of_nat (List.length clks).
Proof.
  induction clks as [|k rest IH]; intros cb Hs Hcs Hlt Hmax.
  - simpl. repeat split; [exact Hs | lia].
  - cbn [List.length] in Hlt, Hmax |- *.
    cbn [successes map]. rewrite run_cons.
    rewrite step_success_below_limit by (try assumption; lia).
    set (cb' := set_counts cb (Counts.onSuccess (counts cb))).
    assert (Hcs' : Counts.ConsecutiveSuccess (counts cb')
                   = Counts.ConsecutiveSuccess (counts cb) + 1).
    { unfold cb'. simpl. apply incr_succ. unfold int_min. lia. }
    assert (Hm' : maxRequests cb' = maxRequests cb) by reflexivity.
    assert (Hs' : state cb' = StateHalfOpen) by exact Hs.
    assert (H1 : 0 <= Counts.ConsecutiveSuccess (counts cb'))
      by (rewrite Hcs'; lia).
    assert (H2 : Counts.ConsecutiveSuccess (counts cb')
                 + Z.of_nat (List.length rest) < maxRequests cb')
      by (rewrite Hcs', Hm'; lia).
    assert (H3 : Counts.ConsecutiveSuccess (counts cb')
                 + Z.of_nat (List.length rest) <= int_max)
      by (rewrite Hcs'; lia).
    destruct (IH cb' Hs' H1 H2 H3) as (R1 & R2 & R3).
    change (generation cb') with (generation cb) in R1, R2, R3.
    fold (successes (generation cb) rest).
    repeat split; [exact R1 | exact R2 |].
    rewrite R3, Hcs'. lia.
Qed.

(** X11: on a half-open breaker with no success streak yet, successes
    recorded one after the other under its generation keep it half-open, in
    the same generation, as long as there are fewer of them than
    [maxRequests]; the success that brings their number to [maxRequests]
    (the first one when [maxRequests] is below one) closes the breaker: new
    generation, all counters at zero, zero expiry. *)
Theorem HalfOpen_closes_at_limit
    (cb : CircuitBreaker) (clks : list (Time * Time * Time)) :
  state cb = StateHalfOpen ->
  Counts.ConsecutiveSuccess (counts cb) = 0 ->
  Z.of_nat (List.length clks) <= int_max ->
  (Z.of_nat (List.length clks) < maxRequests cb ->
   state (run cb (successes (generation cb) clks)) = StateHalfOpen /\
   generation (run cb (successes (generation cb) clks)) = generation cb /\
   Counts.ConsecutiveSuccess (counts (run cb (successes (generation cb) clks)))
   = Z.of_nat (List.length clks)) /\
  (Z.of_nat (List.length clks) = Z.max 1 (maxRequests cb) ->
   run cb (successes (generation cb) clks)
   = mkCB (timeout cb) (maxRequests cb) (readyToTrip cb) StateClosed
          (incr (generation cb)) (Counts.mk 0 0 0 0 0) zeroTime).
Proof.
  intros Hs Hcs Hmax. split.
  - intros Hlt.
    destruct (successes_below_limit clks cb Hs) as (R1 & R2 & R3);
      try (rewrite Hcs; lia).
    repeat split; [exact R1 | exact R2 |]. rewrite R3, Hcs. lia.
  - intros Hlen.
    assert (Hne : clks <> []).
    { intros ->. simpl in Hlen. lia. }
    destruct (exists_last Hne) as (front & k & ->).
    rewrite length_app in Hlen, Hmax. cbn [List.length] in Hlen, Hmax.
    unfold successes. rewrite map_app. cbn [map].
    fold (successes (generation cb) front).
    rewrite run_app.
    destruct front as [|k0 front'].
    + cbn [successes map run fold_left].
      cbn [List.length] in Hlen.
      apply step_success_at_limit; [exact Hs | rewrite Hcs | rewrite Hcs].
      * unfold int_max. lia.
      * lia.
    + set (front := k0 :: front') in *.
      assert (Hpos : 1 <= Z.of_nat (List.length front))
        by (unfold front; cbn [List.length]; lia).
      destruct (successes_below_limit front cb Hs) as (R1 & R2 & R3);
        try (rewrite Hcs; lia).
      destruct (run_same_config (successes (generation cb) front) cb)
        as (C1 & C2 & C3).
      set (cb2 := run cb (successes (generation cb) front)) in *.
      cbn [run fold_left]. rewrite <- R2.
      rewrite step_success_at_limit; try assumption.
      * rewrite C1, C2, C3. reflexivity.
      * rewrite R3, Hcs. unfold int_max in *. lia.
      * rewrite R3, Hcs, C2. lia.
Qed.

Lemma HalfOpen_closes_at_limit_witness :
  run cb_probe (successes 1 [ (2100, 2100, 2100); (2200, 2200, 2200);
                              (2300, 2300, 2300); (2400, 2400, 2400);
                              (2500, 2500, 2500) ])
  = mkCB defaultTimeOut 5 defaultReadyToTrip StateClosed 2
         (Counts.mk 0 0 0 0 0) zeroTime.
Proof.
  destruct (HalfOpen_closes_at_limit cb_probe
              [ (2100, 2100, 2100); (2200, 2200, 2200); (2300, 2300, 2300);
                (2400, 2400, 2400); (2500, 2500, 2500) ]) as [_ Hclose].
  - reflexivity.
  - reflexivity.
  - vm_compute. congruence.
  - apply Hclose. reflexivity.
Defined.

(** * The counters *)

Lemma Counts_ok_zero (b : Z) : 0 <= b -> Counts_ok b (Counts.mk 0 0 0 0 0).
Proof. intros Hb. unfold Counts_ok. simpl. lia. Qed.

Lemma Counts_ok_weaken (b b' : Z) (c : Counts.t) :
  b <= b' -> Counts_ok b c -> Counts_ok b' c.
Proof. unfold Counts_ok. intros Hb H. lia. Qed.

Lemma Counts_ok_onRequest (b : Z) (c : Counts.t) :
  b < int_max -> Counts_ok b c -> Counts_ok (b + 1) (Counts.onRequest c).
Proof.
  unfold Counts_ok, Counts.onRequest. intros Hb H. simpl.
  rewrite incr_succ by (unfold int_min; lia). lia.
Qed.

Lemma Counts_ok_onSuccess (b : Z) (c : Counts.t) :
  b < int_max -> Counts_ok b c -> Counts_ok (b + 1) (Counts.onSuccess c).
Proof.
  unfold Counts_ok, Counts.onSuccess. intros Hb H. simpl.
  rewrite !incr_succ by (unfold int_min; lia). lia.
Qed.

Lemma Counts_ok_onFail (b : Z) (c : Counts.t) :
  b < int_max -> Counts_ok b c -> Counts_ok (b + 1) (Counts.onFail c).
Proof.
  unfold Counts_ok, Counts.onFail. intros Hb H. simpl.
  rewrite !incr_succ by (unfold int_min; lia). lia.
Qed.

Lemma setState_Counts_ok (b : Z) (cb : CircuitBreaker) (s : State) (t : Time) :
  0 <= b -> Counts_ok b (counts cb) -> Counts_ok b (counts (setState cb s t)).
Proof.
  intros Hb H. unfold setState.
  destruct (State_eqb s (state cb)); [exact H|].
  unfold newGeneration. break_if; simpl; apply Counts_ok_zero; exact Hb.
Qed.

Lemma currentState_Counts_ok (b : Z) (cb : CircuitBreaker) (t tnow : Time) :
  0 <= b -> Counts_ok b (counts cb) ->
  Counts_ok b (counts (resolved cb t tnow)).
Proof.
  intros Hb H. unfold resolved, currentState.
  break_if; simpl; [apply setState_Counts_ok|]; assumption.
Qed.

Lemma step_Counts_ok (b : Z) (cb : CircuitBreaker) (ev : Event) :
  0 <= b < int_max ->
  Counts_ok b (counts cb) -> Counts_ok (b + 1) (counts (step cb ev)).
Proof.
  intros Hb H.
  destruct ev as [t tnow | before isSuccess now t tnow]; cbn [step].
  - rewrite beforeRequest_shape. cbv zeta. cbn [fst].
    apply currentState_Counts_ok; [lia|].
    simpl. apply Counts_ok_onRequest; [lia | exact H].
  - unfold afterRequest. rewrite currentState_outputs.
    pose proof (currentState_Counts_ok b cb t tnow (proj1 Hb) H) as Hr.
    set (cb1 := resolved cb t tnow) in *.
    break_if; [apply (Counts_ok_weaken b); [lia | exact Hr]|].
    destruct isSuccess; unfold onSuccess, onFail;
      destruct (state cb1); repeat break_if;
      try apply setState_Counts_ok; try lia; simpl;
      try (apply Counts_ok_onSuccess; [lia | exact Hr]);
      try (apply Counts_ok_onFail; [lia | exact Hr]);
      apply (Counts_ok_weaken b); try lia; exact Hr.
Qed.

Lemma run_Counts_ok (evs : list Event) :
  forall (b : Z) (cb : CircuitBreaker),
    0 <= b ->
    b + Z.of_nat (List.length evs) <= int_max ->
    Counts_ok b (counts cb) ->
    Counts_ok (b + Z.of_nat (List.length evs)) (counts (run cb evs)).
Proof.
  induction evs as [|ev rest IH]; intros b cb Hb Hmax H.
  - simpl. rewrite Z.add_0_r. exact H.
  - rewrite run_cons. cbn [List.length] in *.
    replace (b + Z.of_nat (S (List.length rest)))
      with ((b + 1) + Z.of_nat (List.length rest)) by lia.
    apply IH; [lia | lia |].
    apply step_Counts_ok; [lia | exact H].
Qed.

(** X13: the counters of a breaker made by [NewCircuitBreaker] stay sound
    through any history of fewer than [2 ^ 63] events: none is negative or
    above the number of events, each streak is at most its total, and the
    success streak and the failure streak are never both above zero. *)
Theorem reachable_counts_sound
    (setings : Settings) (created : Time) (evs : list Event) :
  Z.of_nat (List.length evs) <= int_max ->
  Counts_ok (Z.of_nat (List.length evs))
            (counts (run (NewCircuitBreaker setings created) evs)).
Proof.
  intros Hmax.
  apply (run_Counts_ok evs 0 (NewCircuitBreaker setings created));
    [lia | exact Hmax |].
  apply Counts_ok_zero. lia.
Qed.

Lemma reachable_counts_sound_witness :
  Counts_ok 10 (counts (run cb_new (Admission 2000 2000 :: probe_history))).
Proof.
  apply (reachable_counts_sound defaultSettings 1000
                                (Admission 2000 2000 :: probe_history)).
  vm_compute. congruence.
Defined.

(** * What a caller sees *)

Lemma checks_at_checks (clks : list (Time * Time)) :
  checks (checks_at clks) = List.length clks.
Proof.
  induction clks as [|k rest IH]; [reflexivity|].
  cbn [checks_at map checks List.length]. fold (checks_at rest).
  rewrite IH. reflexivity.
Qed.

Lemma checks_at_stay_HalfOpen (clks : list (Time * Time)) :
  forall cb : CircuitBreaker,
    state cb = StateHalfOpen ->
    Forall (fun c => state c = StateHalfOpen) (states cb (checks_at clks)).
Proof.
  induction clks as [|k rest IH]; intros cb Hs; [constructor|].
  cbn [checks_at map states]. fold (checks_at rest).
  assert (Hs' : state (step cb (Admission (fst k) (snd k))) = StateHalfOpen).
  { unfold step. rewrite (beforeRequest_HalfOpen cb _ _ Hs). exact Hs. }
  constructor; [exact Hs' | apply IH, Hs'].
Qed.

Lemma beforeRequest_Closed_due (cb : CircuitBreaker) (t tnow : Time) :
  state cb = StateClosed -> expiry cb < t -> 0 <= maxRequests cb ->
  beforeRequest cb t tnow
  = (mkCB (timeout cb) (maxRequests cb) (readyToTrip cb) StateHalfOpen
          (incr (generation cb)) (Counts.mk 0 0 0 0 0) zeroTime,
     incr (generation cb), None).
Proof.
  intros Hs He Hm.
  assert (Hle : (maxRequests cb <? 0) = false) by (apply Z.ltb_ge; exact Hm).
  unfold beforeRequest.
  rewrite currentState_due; [|exact Hs|exact He].
  cbn [State_eqb andb maxRequests counts Counts.Requests set_counts
       timeout readyToTrip generation].
  change (Counts.Requests Counts.zero) with 0.
  rewrite Hle. reflexivity.
Qed.

(** X9: on a breaker made by [NewCircuitBreaker] with a trial limit that is
    not negative, admission checks made one after the other with no outcome
    recorded in between, the first of them after the zero time, are admitted
    [maxRequests + 1] times: the first check moves the breaker to
    [StateHalfOpen] and its own request is cleared with the old counts; the
    next [maxRequests] are counted, and every later one is rejected with
    [ErrTooManyRequests]. *)
Theorem new_breaker_admits_limit_plus_one
    (setings : Settings) (created t tnow : Time) (clks : list (Time * Time)) :
  zeroTime < t ->
  0 <= maxRequests (NewCircuitBreaker setings created) ->
  Z.of_nat (List.length clks) <= int_max ->
  admissions (NewCircuitBreaker setings created)
             (Admission t tnow :: checks_at clks)
  = None
    :: repeat None
         (Nat.min (List.length clks)
                  (Z.to_nat (maxRequests (NewCircuitBreaker setings created))))
    ++ repeat (Some ErrTooManyRequests)
         (List.length clks
          - Z.to_nat (maxRequests (NewCircuitBreaker setings created))).
Proof.
  intros Ht Hm Hmax.
  set (cb := NewCircuitBreaker setings created) in *.
  assert (Hfirst :
    beforeRequest cb t tnow
    = (mkCB (timeout cb) (maxRequests cb) (readyToTrip cb)
            StateHalfOpen 1 (Counts.mk 0 0 0 0 0) zeroTime, 1, None)).
  { rewrite (beforeRequest_Closed_due cb t tnow);
      [reflexivity | reflexivity | exact Ht | exact Hm]. }
  cbn [admissions step]. rewrite Hfirst. cbn [fst snd].
  f_equal.
  set (cb1 := mkCB (timeout cb) (maxRequests cb) (readyToTrip cb)
                   StateHalfOpen 1 (Counts.mk 0 0 0 0 0) zeroTime).
  assert (Hr : Counts.Requests (counts cb1) = 0) by reflexivity.
  assert (Hm1 : maxRequests cb1 = maxRequests cb) by reflexivity.
  rewrite (admissions_HalfOpen (checks_at clks) cb1).
  - rewrite checks_at_checks, Hr, Hm1.
    rewrite verdicts_split by lia. rewrite Z.sub_0_r. reflexivity.
  - reflexivity.
  - rewrite Hr. lia.
  - rewrite checks_at_checks, Hr. lia.
  - apply checks_at_stay_HalfOpen. reflexivity.
Qed.

Lemma new_breaker_admits_limit_plus_one_witness :
  admissions cb_new
    (Admission 2000 2000
     :: checks_at [ (2100, 2100); (2200, 2200); (2300, 2300); (2400, 2400);
                    (2500, 2500); (2600, 2600); (2700, 2700) ])
  = [ None; None; None; None; None; None;
      Some ErrTooManyRequests; Some ErrTooManyRequests ].
Proof.
  rewrite (new_breaker_admits_limit_plus_one defaultSettings 1000 2000 2000).
  - reflexivity.
  - reflexivity.
  - vm_compute. congruence.
  - vm_compute. congruence.
Defined.

(** X15: take a breaker whose expiry is zero unless it is open, as every
    breaker made by [NewCircuitBreaker] is, and a call admitted at a time
    after the zero time, during which no other call takes the lock of the
    breaker and whose operation returns a nil error or panics.  [Execute]
    leaves the breaker in [StateOpen], and from then on every admission
    check, at any time and under any interleaving of later calls, is
    rejected with [ErrOpenState]. *)
Theorem Execute_nil_error_opens_for_good
    {V P : Type} (cb : CircuitBreaker) (req : unit -> ReqResult V P)
    (k : Clock) (evs : list Event) :
  expiry_ok cb ->
  zeroTime < before_t k ->
  snd (beforeRequest cb (before_t k) (before_tnow k)) = None ->
  accounted_as_success (req tt) = false ->
  state (fst (Execute cb req k)) = StateOpen /\
  admissions (fst (Execute cb req k)) evs
  = repeat (Some ErrOpenState) (checks evs) /\
  state (run (fst (Execute cb req k)) evs) = StateOpen.
Proof.
  intros Hok Ht Hadm Hfail.
  destruct (beforeRequest cb (before_t k) (before_tnow k))
    as [[cb1 g] err] eqn:Hb.
  cbn [snd] in Hadm. subst err.
  destruct (admitted_trial cb cb1 g _ _ Hok Ht Hb) as [Hs Hg].
  assert (Hopen : state (fst (Execute cb req k)) = StateOpen).
  { unfold Execute. rewrite Hb, Hg.
    destruct (req tt) as [res err | e]; cbn [accounted_as_success] in Hfail;
      cbn [fst]; try rewrite Hfail;
      rewrite (afterRequest_HalfOpen_current cb1 false _ _ _ Hs);
      unfold onFail;
      rewrite setState_fresh by (simpl; rewrite Hs; discriminate);
      reflexivity. }
  destruct (run_Open evs _ Hopen) as ((R1 & _) & Ra).
  repeat split; assumption.
Qed.

Lemma Execute_nil_error_opens_for_good_witness :
  state (fst (Execute cb_new req_ok clock_2000)) = StateOpen /\
  admissions (fst (Execute cb_new req_ok clock_2000)) probe_history
  = repeat (Some ErrOpenState) 7.
Proof.
  destruct (Execute_nil_error_opens_for_good cb_new req_ok clock_2000
                                             probe_history)
    as (H1 & H2 & _).
  - right. reflexivity.
  - reflexivity.
  - reflexivity.
  - reflexivity.
  - split; [exact H1 | exact H2].
Defined.
